(** * Dewatermark client: request construction and response mapping

    A shallow embedding of [src/index.ts] (class [Dewatermark] with its two
    methods [eraseWatermark] and [saveLargeImage]) together with the
    properties of the request builder, the response mapper and the error
    handler.

    The JavaScript program is modelled as follows.
    - Optional properties ([x?: T]) are [option T]; [None] is [undefined].
    - [string | Buffer] is the tagged type [ImageSource].
    - A [FormData] object, which the code only ever appends to, is the list
      of its parts in append order.
    - The two observable effects, [axios.post] and [console.error], are
      recorded in an event trace; exceptions are a [Throw] completion.  The
      computation type [M] is a writer monad over the trace combined with
      an exception monad.
    - What lies outside the repository (file system, base64 decoder of
      [Buffer.from], the remote service behind [axios.post], the multipart
      boundary chosen by [form-data]) is gathered in a [Platform] record
      that every definition takes as an argument. *)

From Stdlib Require Import List String Ascii ZArith Bool.
From Stdlib.Strings Require Import Byte.
Import ListNotations.
Local Open Scope list_scope.
Local Open Scope string_scope.

Set Implicit Arguments.
Set Warnings "-register-all".

(** ** JavaScript values *)

(** Values obtained from a response body ([response.data] is [any]).
    A number is represented by its canonical rendering ([Number::toString],
    for instance ["0"], ["-1.5"], ["1e+21"]): the program never computes
    with numbers, it only tests them for truthiness and prints them.
    [JObj] lists the own properties of a parsed object, keys unique. *)
Inductive Json : Type :=
| JNull
| JBool (b : bool)
| JNum (rendering : string)
| JStr (s : string)
| JArr (items : list Json)
| JObj (fields : list (string * Json)).

(** A JavaScript value of the response world: [None] is [undefined]. *)
Definition Value := option Json.

(** Own-property lookup in a parsed object. *)
Fixpoint assoc (k : string) (fields : list (string * Json)) : Value :=
  match fields with
  | [] => None
  | (k', v) :: rest => if String.eqb k k' then Some v else assoc k rest
  end.

Definition has_key (k : string) (fields : list (string * Json)) : bool :=
  match assoc k fields with Some _ => true | None => false end.

(** ToBoolean on strings: only the empty string is falsy. *)
Definition truthy_string (s : string) : bool :=
  match s with EmptyString => false | String _ _ => true end.

(** ToBoolean on a response value. *)
Definition truthy (v : Value) : bool :=
  match v with
  | None => false
  | Some JNull => false
  | Some (JBool b) => b
  | Some (JNum r) => negb (String.eqb r "0" || String.eqb r "NaN")
  | Some (JStr s) => truthy_string s
  | Some (JArr _) => true
  | Some (JObj _) => true
  end.

(** [a || b]. *)
Definition js_or (a b : Value) : Value := if truthy a then a else b.

(** [o?.k] and [o.k] agree when [o] is neither [undefined] nor [null];
    [optional_get] is [o?.k].  The keys this program reads ([message],
    [session_id], [edited_image], [image], [mask], [watermark_mask],
    [large_image_to_save]) are defined on no built-in prototype, so on a
    primitive or an array the read yields [undefined]. *)
Definition optional_get (o : Value) (k : string) : Value :=
  match o with
  | Some (JObj fields) => assoc k fields
  | _ => None
  end.

(** ToString as performed by a template literal.  [None] stands for the
    TypeError raised when an object cannot be converted to a primitive: a
    parsed object whose own [toString] property shadows the inherited
    method (no parsed value is callable).  Arrays print their elements
    joined by commas, [null] elements printing as the empty string. *)
Fixpoint ToString (v : Json) : option string :=
  match v with
  | JNull => Some "null"
  | JBool b => Some (if b then "true" else "false")
  | JNum r => Some r
  | JStr s => Some s
  | JArr items =>
      let element (x : Json) : option string :=
        match x with JNull => Some "" | _ => ToString x end in
      (fix join (l : list Json) : option string :=
         match l with
         | [] => Some ""
         | [x] => element x
         | x :: rest =>
             match element x, join rest with
             | Some a, Some b => Some (a ++ "," ++ b)
             | _, _ => None
             end
         end) items
  | JObj fields =>
      if has_key "toString" fields then None else Some "[object Object]"
  end.

(** ToString on a possibly undefined value. *)
Definition ToString_value (v : Value) : option string :=
  match v with None => Some "undefined" | Some j => ToString j end.

(** ** Strings and arrays *)

(** [s.split(sep)] for a one-character separator: the pieces of [s]
    between the occurrences of [sep]; never the empty array. *)
Fixpoint split (sep : ascii) (s : string) : list string :=
  match s with
  | EmptyString => [EmptyString]
  | String c s' =>
      if Ascii.eqb c sep then EmptyString :: split sep s'
      else match split sep s' with
           | [] => [String c EmptyString]
           | piece :: rest => String c piece :: rest
           end
  end.

(** [a.pop()] as an expression: the last element, [undefined] on the
    empty array. *)
Fixpoint pop (a : list string) : option string :=
  match a with
  | [] => None
  | [x] => Some x
  | _ :: rest => pop rest
  end.

(** [e || fallback] where [e] is a string or [undefined]. *)
Definition or_default (e : option string) (fallback : string) : string :=
  match e with
  | Some s => if truthy_string s then s else fallback
  | None => fallback
  end.

Definition slash : ascii := "/"%char.

(** [Boolean.prototype.toString]. *)
Definition Boolean_toString (b : bool) : string :=
  if b then "true" else "false".

(** [e ?? fallback] where [e] is a string or [undefined]. *)
Definition nullish (e : option string) (fallback : string) : string :=
  match e with Some s => s | None => fallback end.

(** ** Request bodies *)

(** [string | Buffer]: the two runtime shapes of an image source. *)
Inductive ImageSource : Type :=
| SrcString (s : string)
| SrcBuffer (b : list byte).

(** The object returned by [fs.createReadStream(path)]: a lazy stream over
    the file at [path]; nothing is read until the request is sent. *)
Record ReadStream : Type := createReadStream { stream_path : string }.

(** What [FormData.append] accepts as a value in this program. *)
Inductive PartBody : Type :=
| TextBody (text : string)
| BufferBody (bytes : list byte)
| StreamBody (stream : ReadStream).

(** One multipart part: field name, value and the [filename] option. *)
Record Part : Type := mkPart {
  field : string;
  body : PartBody;
  filename : option string
}.

(** A [FormData] object is the sequence of the parts appended to it. *)
Definition FormData := list Part.

Definition FormData_new : FormData := [].

(** [formData.append(field, value, { filename })] and
    [formData.append(field, value)]. *)
Definition append (formData : FormData) (name : string) (value : PartBody)
    (file : option string) : FormData :=
  (formData ++ [mkPart name value file])%list.

(** The parts of a form that carry a given field name. *)
Definition parts_named (name : string) (formData : FormData) : list Part :=
  filter (fun p => String.eqb (field p) name) formData.

(** ** Errors, events and computations *)

Record AxiosResponse : Type := mkResponse {
  status : Z;
  statusText : string;
  data : Json
}.

(** An error for which [axios.isAxiosError] holds: [response] is present
    when the service answered, absent on a failure of the transport. *)
Record AxiosError : Type := mkAxiosError {
  response : option AxiosResponse;
  message : string
}.

(** The values this program can see thrown.  [NewError m] is the object
    built by [new Error(m)]: besides its message it holds nothing that
    depends on the request.  [Foreign] is any other thrown value that
    [axios.isAxiosError] does not recognise, such as a file-system error
    raised while a path is streamed. *)
Inductive Thrown : Type :=
| NewError (msg : string)
| TypeError (msg : string)
| Axios (e : AxiosError)
| Foreign (description : string).

(** [axios.isAxiosError(error)], a type guard: the Axios error when the
    thrown value is one. *)
Definition as_AxiosError (error : Thrown) : option AxiosError :=
  match error with Axios e => Some e | _ => None end.

Definition isAxiosError (error : Thrown) : bool :=
  match as_AxiosError error with Some _ => true | None => false end.

(** The object literal handed to [console.error]. *)
Record ErrorDetails : Type := mkDetails {
  details_status : option Z;
  details_statusText : option string;
  details_data : Value
}.

Definition Headers := list (string * string).

Inductive Event : Type :=
| Post (url : string) (payload : FormData) (headers : Headers)
| ConsoleError (label : string) (details : ErrorDetails).

(** How a statement sequence ends. *)
Inductive Completion (A : Type) : Type :=
| Normal (a : A)
| Throw (error : Thrown).

Arguments Normal {A} a.
Arguments Throw {A} error.

(** A computation: the events it performed, then how it ended.  For a
    call of one of the two [async] methods this is how the returned promise
    settles, [Normal] for fulfilled and [Throw] for rejected.  The methods
    suspend at one point only, the [await] on [axios.post], which a [Post]
    event records: whatever happens in a trace without a [Post] happens
    within the call itself, before anything is awaited. *)
Definition M (A : Type) : Type := (list Event * Completion A)%type.

Definition ret {A} (a : A) : M A := ([], Normal a).

Definition throw {A} (error : Thrown) : M A := ([], Throw error).

Definition emit (e : Event) : M unit := ([e], Normal tt).

Definition bind {A B} (m : M A) (k : A -> M B) : M B :=
  match m with
  | (log, Normal a) => let (log', c) := k a in ((log ++ log')%list, c)
  | (log, Throw error) => (log, Throw error)
  end.

(** [try { m } catch (error) { handler }]. *)
Definition try_catch {A} (m : M A) (handler : Thrown -> M A) : M A :=
  match m with
  | (log, Throw error) =>
      let (log', c) := handler error in ((log ++ log')%list, c)
  | (log, Normal a) => (log, Normal a)
  end.

Notation "x <- m ;; k" := (bind m (fun x => k))
  (at level 61, m at next level, right associativity).
Notation "m ;;; k" := (bind m (fun _ => k))
  (at level 61, right associativity).

Definition events {A} (m : M A) : list Event := fst m.
Definition completion {A} (m : M A) : Completion A := snd m.

(** ** The platform *)

(** How the promise returned by [axios.post] settles. *)
Inductive Settled : Type :=
| Fulfilled (r : AxiosResponse)
| Rejected (reason : Thrown).

(** Everything the client calls but does not define. *)
Record Platform : Type := mkPlatform {
  fs_existsSync : string -> bool;
  Buffer_from_base64 : string -> list byte;
  FormData_boundary : string;
  remote : string -> FormData -> Headers -> Settled
}.

(** [formData.getHeaders()]. *)
Definition getHeaders (pf : Platform) (formData : FormData) : Headers :=
  [("content-type", "multipart/form-data; boundary=" ++ FormData_boundary pf)].

(** [await axios.post(url, data, { headers })]. *)
Definition axios_post (pf : Platform) (url : string) (payload : FormData)
    (headers : Headers) : M AxiosResponse :=
  emit (Post url payload headers) ;;;
  match remote pf url payload headers with
  | Fulfilled r => ret r
  | Rejected reason => throw reason
  end.

Definition console_error (label : string) (details : ErrorDetails) : M unit :=
  emit (ConsoleError label details).

(** [o.k]: reading a property of [undefined] or [null] raises. *)
Definition get (o : Value) (k : string) : M Value :=
  match o with
  | None =>
      throw (TypeError
        ("Cannot read properties of undefined (reading '" ++ k ++ "')"))
  | Some JNull =>
      throw (TypeError
        ("Cannot read properties of null (reading '" ++ k ++ "')"))
  | Some _ => ret (optional_get o k)
  end.

(** ** The interfaces of [index.ts] *)

Module EraseWatermarkOptions.
Record t : Type := mk {
  originalPreviewImage : option ImageSource;
  maskBase : option string;
  maskBrush : option string;
  sessionId : option string;
  removeText : option bool
}.
End EraseWatermarkOptions.

Module EraseWatermarkResponse.
Record t : Type := mk {
  sessionId : Value;
  imageBase64 : Value;
  maskBase : Value;
  watermarkMask : Value
}.
End EraseWatermarkResponse.

Module SaveLargeImageOptions.
Record t : Type := mk {
  originalLargeImage : option ImageSource;
  previewImageToSave : option string;
  previewMaskToSave : option string;
  sessionId : option string;
  removeText : option bool
}.
End SaveLargeImageOptions.

Module SaveLargeImageResponse.
Record t : Type := mk {
  largeImageToSave : Value
}.
End SaveLargeImageResponse.

(** ** The class [Dewatermark] *)

Record Dewatermark : Type := new_Dewatermark { apiKey : string }.

Definition eraseUrl : string :=
  "https://platform.dewatermark.ai/api/object_removal/v1/erase_watermark".

Definition saveLargeImageUrl : string :=
  "https://platform.dewatermark.ai/api/object_removal/v1/save_large_image".

(** [if (x)] on an optional string property: the string when truthy. *)
Definition truthy_text (o : option string) : option string :=
  match o with
  | Some s => if truthy_string s then Some s else None
  | None => None
  end.

(** [if (x)] on an optional [string | Buffer] property: the value when
    truthy.  A Buffer is an object, hence truthy even when it is empty. *)
Definition truthy_source (o : option ImageSource) : option ImageSource :=
  match o with
  | Some (SrcString s) => if truthy_string s then o else None
  | Some (SrcBuffer _) => o
  | None => None
  end.

(** The block shared by lines 51-63 and 126-137: attach an image source
    already known to be truthy under the field [name]. *)
Definition append_image (pf : Platform) (formData : FormData) (name : string)
    (image : ImageSource) : FormData :=
  match image with
  | SrcString path =>
      if fs_existsSync pf path then
        append formData name (StreamBody (createReadStream path))
          (Some (or_default (pop (split slash path)) "image.png"))
      else
        (* not a Buffer: Buffer.from(image, 'base64') *)
        append formData name (BufferBody (Buffer_from_base64 pf path))
          (Some "image.png")
  | SrcBuffer imageBuffer =>
      append formData name (BufferBody imageBuffer) (Some "image.png")
  end.

(** The [catch] clause of both methods (lines 103-113 and 176-186). *)
Definition catch_clause {A} (error : Thrown) : M A :=
  match as_AxiosError error with
  | Some e =>
      console_error "API Error Details:"
        (mkDetails (option_map status (response e))
                   (option_map statusText (response e))
                   (option_map data (response e))) ;;;
      match ToString_value
              (js_or (optional_get (option_map data (response e)) "message")
                     (Some (JStr (message e)))) with
      | Some text => throw (NewError ("API Error: " ++ text))
      | None => throw (TypeError "Cannot convert object to primitive value")
      end
  | None => throw error
  end.

Section erase.
Import EraseWatermarkOptions.

(** Lines 47-86 of [eraseWatermark]: the form that will be posted, or
    the exception raised while building it. *)
Definition erase_formData (pf : Platform) (options : EraseWatermarkOptions.t)
    : M FormData :=
  let formData := FormData_new in
  (* Handle original preview image *)
  formData <-
    match truthy_source (originalPreviewImage options) with
    | Some image =>
        ret (append_image pf formData "original_preview_image" image)
    | None =>
        match truthy_text (sessionId options) with
        | Some id => ret (append formData "session_id" (TextBody id) None)
        | None =>
            throw (NewError
              "Either originalPreviewImage or sessionId must be provided")
        end
    end ;;
  (* Handle mask base *)
  let formData :=
    match truthy_text (maskBase options) with
    | Some mask =>
        append formData "mask_base" (BufferBody (Buffer_from_base64 pf mask))
          (Some "mask_base.jpeg")
    | None => formData
    end in
  (* Handle mask brush *)
  let formData :=
    match truthy_text (maskBrush options) with
    | Some brush =>
        append formData "mask_brush" (StreamBody (createReadStream brush))
          (Some (or_default (pop (split slash brush)) "mask_brush.png"))
    | None => formData
    end in
  (* Add remove text option *)
  ret (append formData "remove_text"
         (TextBody (nullish (option_map Boolean_toString (removeText options))
                            "true"))
         None).

(** Lines 89-102: the body of the [try] block. *)
Definition erase_request (pf : Platform) (this : Dewatermark)
    (formData : FormData) : M EraseWatermarkResponse.t :=
  response <- axios_post pf eraseUrl formData
                (("x-api-key", apiKey this) :: getHeaders pf formData) ;;
  let responseData : Value := Some (data response) in
  session_id <- get responseData "session_id" ;;
  edited_image <- get responseData "edited_image" ;;
  image <- get edited_image "image" ;;
  edited_image' <- get responseData "edited_image" ;;
  mask <- get edited_image' "mask" ;;
  edited_image'' <- get responseData "edited_image" ;;
  watermark_mask <- get edited_image'' "watermark_mask" ;;
  ret (EraseWatermarkResponse.mk session_id image mask watermark_mask).

Definition eraseWatermark (pf : Platform) (this : Dewatermark)
    (options : EraseWatermarkOptions.t) : M EraseWatermarkResponse.t :=
  formData <- erase_formData pf options ;;
  try_catch (erase_request pf this formData) catch_clause.
End erase.

Section save.
Import SaveLargeImageOptions.

(** Lines 122-162 of [saveLargeImage]. *)
Definition save_formData (pf : Platform) (options : SaveLargeImageOptions.t)
    : FormData :=
  let formData := FormData_new in
  (* Handle original large image *)
  let formData :=
    match truthy_source (originalLargeImage options) with
    | Some image => append_image pf formData "original_large_image" image
    | None => formData
    end in
  (* Handle preview image to save *)
  let formData :=
    match truthy_text (previewImageToSave options) with
    | Some preview =>
        append formData "preview_image_to_save"
          (BufferBody (Buffer_from_base64 pf preview))
          (Some "preview_image_to_save.jpeg")
    | None => formData
    end in
  (* Handle preview mask to save *)
  let formData :=
    match truthy_text (previewMaskToSave options) with
    | Some mask =>
        append formData "preview_mask_to_save"
          (BufferBody (Buffer_from_base64 pf mask))
          (Some "preview_mask_to_save.jpeg")
    | None => formData
    end in
  (* Add session ID *)
  let formData :=
    match truthy_text (sessionId options) with
    | Some id => append formData "session_id" (TextBody id) None
    | None => formData
    end in
  (* Add remove text option *)
  append formData "remove_text"
    (TextBody (nullish (option_map Boolean_toString (removeText options))
                       "true"))
    None.

(** Lines 165-175: the body of the [try] block. *)
Definition save_request (pf : Platform) (this : Dewatermark)
    (formData : FormData) : M SaveLargeImageResponse.t :=
  response <- axios_post pf saveLargeImageUrl formData
                (("x-api-key", apiKey this) :: getHeaders pf formData) ;;
  let responseData : Value := Some (data response) in
  large_image_to_save <- get responseData "large_image_to_save" ;;
  ret (SaveLargeImageResponse.mk large_image_to_save).

Definition saveLargeImage (pf : Platform) (this : Dewatermark)
    (options : SaveLargeImageOptions.t) : M SaveLargeImageResponse.t :=
  let formData := save_formData pf options in
  try_catch (save_request pf this formData) catch_clause.
End save.

(** ** Concrete platforms

    Used to run the client on explicit inputs. *)

(** The value of a base64 digit, URL-safe variants included. *)
Definition sextet (c : ascii) : option N :=
  let n := N_of_ascii c in
  if (65 <=? n)%N && (n <=? 90)%N then Some (n - 65)%N
  else if (97 <=? n)%N && (n <=? 122)%N then Some (n - 71)%N
  else if (48 <=? n)%N && (n <=? 57)%N then Some (n + 4)%N
  else if (n =? 43)%N || (n =? 45)%N then Some 62%N
  else if (n =? 47)%N || (n =? 95)%N then Some 63%N
  else None.

(** The digits of a string up to the first padding character, anything
    outside the alphabet being skipped. *)
Fixpoint sextets (s : string) : list N :=
  match s with
  | EmptyString => []
  | String c rest =>
      if Ascii.eqb c "="%char then []
      else match sextet c with
           | Some v => v :: sextets rest
           | None => sextets rest
           end
  end.

Definition octet (n : N) : byte :=
  match Byte.of_N (n mod 256) with Some b => b | None => x00 end.

Fixpoint pack (digits : list N) : list byte :=
  match digits with
  | a :: b :: c :: d :: rest =>
      octet (a * 4 + b / 16) :: octet (b * 16 + c / 4) :: octet (c * 64 + d)
        :: pack rest
  | [a; b; c] => [octet (a * 4 + b / 16); octet (b * 16 + c / 4)]
  | [a; b] => [octet (a * 4 + b / 16)]
  | _ => []
  end.

(** A lenient base64 decoder in the manner of Node's. *)
Definition base64_decode (s : string) : list byte := pack (sextets s).

(** A platform whose disk holds exactly the paths [disk] and whose remote
    service settles every request in the same way. *)
Definition platform_with (disk : list string) (answer : Settled) : Platform :=
  mkPlatform (fun path => existsb (String.eqb path) disk)
             base64_decode
             "--------------------------000000000000000000000000"
             (fun _ _ _ => answer).

Definition demo_disk : list string :=
  ["input.jpeg"; "photos/cat.png"; "masks/"; "QUJD"].

Definition erase_success : AxiosResponse :=
  mkResponse 200 "OK"
    (JObj [("session_id", JStr "abc");
           ("edited_image",
            JObj [("image", JStr "A"); ("mask", JStr "B");
                  ("watermark_mask", JStr "C")])]).

Definition save_success : AxiosResponse :=
  mkResponse 200 "OK" (JObj [("large_image_to_save", JStr "X")]).

Definition quota_exceeded : AxiosError :=
  mkAxiosError
    (Some (mkResponse 429 "Too Many Requests"
             (JObj [("message", JStr "quota exceeded")])))
    "Request failed with status code 429".

Definition payment_required : AxiosError :=
  mkAxiosError
    (Some (mkResponse 402 "Payment Required"
             (JObj [("message", JStr "quota exceeded");
                    ("plan", JStr "free")])))
    "Request failed with status code 402".

Definition network_down : AxiosError :=
  mkAxiosError None "connect ECONNREFUSED 127.0.0.1:443".

Definition client : Dewatermark := new_Dewatermark "secret-key".

(** A platform whose service answers every call with a success. *)
Definition demo : Platform := platform_with demo_disk (Fulfilled erase_success).

(** Sample calls. *)
Definition erase_nothing : EraseWatermarkOptions.t :=
  EraseWatermarkOptions.mk None (Some "QUJD") None None (Some true).

Definition erase_empty_image : EraseWatermarkOptions.t :=
  EraseWatermarkOptions.mk (Some (SrcString "")) None None (Some "abc") None.

Definition erase_cat : EraseWatermarkOptions.t :=
  EraseWatermarkOptions.mk (Some (SrcString "photos/cat.png")) None None None
    None.

Definition erase_cat_in_session : EraseWatermarkOptions.t :=
  EraseWatermarkOptions.mk (Some (SrcString "photos/cat.png")) None None
    (Some "abc") None.

Definition erase_refine : EraseWatermarkOptions.t :=
  EraseWatermarkOptions.mk None (Some "QUJD") (Some "brushes/step1.png")
    (Some "abc") (Some false).

Definition erase_brush_directory : EraseWatermarkOptions.t :=
  EraseWatermarkOptions.mk None None (Some "masks/") (Some "abc") None.

Definition erase_empty_mask : EraseWatermarkOptions.t :=
  EraseWatermarkOptions.mk None (Some "") None (Some "abc") None.

Definition save_preview : SaveLargeImageOptions.t :=
  SaveLargeImageOptions.mk None (Some "QUJD") None (Some "abc") None.

Definition save_empty_session : SaveLargeImageOptions.t :=
  SaveLargeImageOptions.mk None (Some "QUJD") None (Some "") None.

(** The forms two of these calls post. *)
Definition cat_form : FormData :=
  [mkPart "original_preview_image"
     (StreamBody (createReadStream "photos/cat.png")) (Some "cat.png");
   mkPart "remove_text" (TextBody "true") None].

Definition refine_form : FormData :=
  [mkPart "session_id" (TextBody "abc") None;
   mkPart "mask_base" (BufferBody [x41; x42; x43]) (Some "mask_base.jpeg");
   mkPart "mask_brush" (StreamBody (createReadStream "brushes/step1.png"))
     (Some "step1.png");
   mkPart "remove_text" (TextBody "false") None].

(** Platforms whose service fails. *)
Definition over_quota : Platform :=
  platform_with demo_disk (Rejected (Axios quota_exceeded)).

Definition unpaid : Platform :=
  platform_with demo_disk (Rejected (Axios payment_required)).

Definition offline : Platform :=
  platform_with demo_disk (Rejected (Axios network_down)).

Definition unreadable : Platform :=
  platform_with demo_disk
    (Rejected (Foreign "ENOENT: no such file or directory, open 'x.png'")).

(** ** Vocabulary of the specification *)

(** [c] occurs in [s]. *)
Definition occurs (c : ascii) (s : string) : Prop :=
  In c (list_ascii_of_string s).

(** [seg] is the final path segment of [path]: what follows the last
    slash, or the whole path when it has none. *)
Definition is_final_segment (path seg : string) : Prop :=
  ~ occurs slash seg /\
  (path = seg \/ exists dir, path = dir ++ String slash seg).

(** [needle] is contained in [hay]. *)
Definition contains (needle hay : string) : Prop :=
  exists before after, hay = before ++ needle ++ after.

(** The filename the specification gives to a streamed path. *)
Definition segment_or (seg generic : string) : string :=
  match seg with EmptyString => generic | _ => seg end.

(** The text the specification gives to the text-removal flag. *)
Definition flag_text (flag : option bool) : string :=
  match flag with Some false => "false" | _ => "true" end.


(** A save call with only [sessionId] and [previewImageToSave] set. *)
Definition save_only (preview id : string) : SaveLargeImageOptions.t :=
  SaveLargeImageOptions.mk None (Some preview) None (Some id) None.

(** [error.response?.data?.message]. *)
Definition remote_message (e : AxiosError) : Value :=
  optional_get (option_map data (response e)) "message".

(** The error built by line 110 (and 183) from an Axios error. *)
Definition api_error (e : AxiosError) : Thrown :=
  match ToString_value (js_or (remote_message e) (Some (JStr (message e)))) with
  | Some text => NewError ("API Error: " ++ text)
  | None => TypeError "Cannot convert object to primitive value"
  end.

(** The diagnostics written by lines 105-109 (and 178-182). *)
Definition api_error_details (e : AxiosError) : ErrorDetails :=
  mkDetails (option_map status (response e))
            (option_map statusText (response e))
            (option_map data (response e)).

(** What the specification says of the message of the surfaced error:
    it contains the message field of the body when there is one, and is
    built from the description of the failure when there is none. *)
Definition prefers_remote_message {A} (e : AxiosError) (c : Completion A)
    : Prop :=
  (forall m, remote_message e = Some (JStr m) ->
     exists msg, c = Throw (NewError msg) /\ contains m msg /\
       (m <> "" -> msg = "API Error: " ++ m)) /\
  (remote_message e = None ->
     c = Throw (NewError ("API Error: " ++ message e))).

(** The headers both methods send. *)
Definition request_headers (pf : Platform) (this : Dewatermark)
    (formData : FormData) : Headers :=
  ("x-api-key", apiKey this) :: getHeaders pf formData.

(** A method body with its [try]/[catch] taken away: what the method
    would do if nothing were caught. *)
Definition erase_unguarded (pf : Platform) (this : Dewatermark)
    (options : EraseWatermarkOptions.t) : M EraseWatermarkResponse.t :=
  formData <- erase_formData pf options ;;
  erase_request pf this formData.

Definition save_unguarded (pf : Platform) (this : Dewatermark)
    (options : SaveLargeImageOptions.t) : M SaveLargeImageResponse.t :=
  save_request pf this (save_formData pf options).

(** [a.join(sep)], the inverse of [split]. *)
Fixpoint join (sep : ascii) (pieces : list string) : string :=
  match pieces with
  | [] => EmptyString
  | [x] => x
  | x :: rest => x ++ String sep (join sep rest)
  end.

(** ** Vocabulary for the request bodies *)

(** The order in which each method appends its fields. *)
Definition erase_field_order : list string :=
  ["original_preview_image"; "session_id"; "mask_base"; "mask_brush";
   "remove_text"].

Definition save_field_order : list string :=
  ["original_large_image"; "preview_image_to_save"; "preview_mask_to_save";
   "session_id"; "remove_text"].

(** [l] is obtained from [big] by dropping some of its elements. *)
Fixpoint is_subsequence (l big : list string) : bool :=
  match big with
  | [] => match l with [] => true | _ :: _ => false end
  | b :: big' =>
      match l with
      | [] => true
      | x :: l' =>
          if String.eqb x b then is_subsequence l' big'
          else is_subsequence l big'
      end
  end.

(** A part is well named when a text part has no filename and a binary
    part has one that is neither empty nor contains a slash. *)
Definition well_named (p : Part) : Prop :=
  match body p, filename p with
  | TextBody _, None => True
  | TextBody _, Some _ => False
  | _, Some name => name <> "" /\ ~ occurs slash name
  | _, None => False
  end.

(** Two platforms decode base64 alike. *)
Definition same_decoder (pf pf' : Platform) : Prop :=
  forall s, Buffer_from_base64 pf s = Buffer_from_base64 pf' s.

(** Further sample calls. *)
Definition erase_empty_buffer : EraseWatermarkOptions.t :=
  EraseWatermarkOptions.mk (Some (SrcBuffer [])) None None (Some "abc") None.

Definition erase_session_only : EraseWatermarkOptions.t :=
  EraseWatermarkOptions.mk None None None (Some "abc") None.

Definition save_nothing : SaveLargeImageOptions.t :=
  SaveLargeImageOptions.mk None (Some "") None None (Some false).

Definition save_example : SaveLargeImageOptions.t :=
  SaveLargeImageOptions.mk (Some (SrcString "input.jpeg")) (Some "QUJD")
    (Some "QUI=") (Some "abc") None.

Definition save_form_example : FormData :=
  [mkPart "original_large_image"
     (StreamBody (createReadStream "input.jpeg")) (Some "input.jpeg");
   mkPart "preview_image_to_save" (BufferBody [x41; x42; x43])
     (Some "preview_image_to_save.jpeg");
   mkPart "preview_mask_to_save" (BufferBody [x41; x42])
     (Some "preview_mask_to_save.jpeg");
   mkPart "session_id" (TextBody "abc") None;
   mkPart "remove_text" (TextBody "true") None].

(** A service that answers without the [edited_image] field. *)
Definition incomplete : Platform :=
  platform_with demo_disk (Fulfilled save_success).

(** A service whose failure carries a structured message. *)
Definition structured_failure : AxiosError :=
  mkAxiosError
    (Some (mkResponse 422 "Unprocessable Entity"
             (JObj [("message", JObj [("code", JNum "7")])])))
    "Request failed with status code 422".

Definition picky : Platform :=
  platform_with demo_disk (Rejected (Axios structured_failure)).

(** The same disk as [demo] without any file on it. *)
Definition blank_disk : Platform := platform_with [] (Fulfilled erase_success).

(** [hay.startsWith(needle)]. *)
Fixpoint starts_with (needle hay : string) : bool :=
  match needle, hay with
  | EmptyString, _ => true
  | String _ _, EmptyString => false
  | String a needle', String b hay' =>
      Ascii.eqb a b && starts_with needle' hay'
  end.

(** [hay.includes(needle)], which decides [contains]. *)
Fixpoint includes (needle hay : string) : bool :=
  match hay with
  | EmptyString => starts_with needle hay
  | String _ hay' => starts_with needle hay || includes needle hay'
  end.

(** How the thrown error follows the message field of the body: a truthy
    field is printed after ["API Error: "], a truthy field that cannot be
    printed gives a TypeError, and an absent or falsy field gives way to
    the description of the failure. *)
Definition follows_message_field {A} (e : AxiosError) (c : Completion A)
    : Prop :=
  (forall v text,
     remote_message e = Some v -> truthy (Some v) = true ->
     ToString v = Some text ->
     c = Throw (NewError ("API Error: " ++ text)) /\
     contains text ("API Error: " ++ text)) /\
  (forall v,
     remote_message e = Some v -> truthy (Some v) = true ->
     ToString v = None ->
     c = Throw (TypeError "Cannot convert object to primitive value")) /\
  (truthy (remote_message e) = false ->
     c = Throw (NewError ("API Error: " ++ message e))).

(** A service whose failure carries a message field that is not text. *)
Definition refused : AxiosError :=
  mkAxiosError
    (Some (mkResponse 400 "Bad Request" (JObj [("message", JBool false)])))
    "Request failed with status code 400".

Definition refusing : Platform :=
  platform_with demo_disk (Rejected (Axios refused)).

(** A service whose failure carries a message that cannot be printed. *)
Definition unprintable_failure : AxiosError :=
  mkAxiosError
    (Some (mkResponse 500 "Internal Server Error"
             (JObj [("message", JObj [("toString", JStr "x")])])))
    "Request failed with status code 500".

Definition garbling : Platform :=
  platform_with demo_disk (Rejected (Axios unprintable_failure)).

(** * Properties *)

(** ** Splitting a path *)

Lemma string_append_assoc (a b c : string) : (a ++ b) ++ c = a ++ (b ++ c).
Proof. induction a as [|x a IH]; simpl; [reflexivity | now rewrite IH]. Qed.

Section Paths.
Variable sep : ascii.

Lemma split_not_nil (s : string) : split sep s <> [].
Proof.
  destruct s as [|c s]; simpl; [discriminate|].
  destruct (Ascii.eqb c sep); [discriminate|].
  destruct (split sep s); discriminate.
Qed.

Lemma join_cons (x : string) (rest : list string) :
  rest <> [] -> join sep (x :: rest) = x ++ String sep (join sep rest).
Proof. destruct rest; [congruence | reflexivity]. Qed.

Lemma join_split (s : string) : join sep (split sep s) = s.
Proof.
  induction s as [|c s IH]; [reflexivity|].
  simpl split. destruct (Ascii.eqb c sep) eqn:E.
  - apply Ascii.eqb_eq in E. subst c.
    rewrite join_cons by apply split_not_nil.
    now rewrite IH.
  - pose proof (split_not_nil s) as N.
    destruct (split sep s) as [|piece rest]; [congruence|].
    destruct rest as [|p rest].
    + simpl in *. now rewrite IH.
    + rewrite join_cons by discriminate.
      rewrite join_cons in IH by discriminate.
      rewrite <- IH. reflexivity.
Qed.

Lemma split_pieces (s : string) :
  Forall (fun piece => ~ occurs sep piece) (split sep s).
Proof.
  induction s as [|c s IH]; simpl.
  - constructor; [intros [] | constructor].
  - destruct (Ascii.eqb c sep) eqn:E.
    + constructor; [intros [] | exact IH].
    + destruct (split sep s) as [|piece rest]; simpl.
      * constructor; [|constructor].
        intros [H|[]]. subst c. now rewrite Ascii.eqb_refl in E.
      * inversion IH as [|? ? Hp Hrest]; subst.
        constructor; [|exact Hrest].
        intros [H|H]; [|now apply Hp].
        subst c. now rewrite Ascii.eqb_refl in E.
Qed.

Lemma pop_snoc (init : list string) (seg : string) :
  pop (init ++ [seg]) = Some seg.
Proof.
  induction init as [|x init IH]; [reflexivity|].
  simpl. destruct (init ++ [seg])%list eqn:E; [|exact IH].
  destruct init; discriminate.
Qed.

Lemma join_snoc (init : list string) (seg : string) :
  init <> [] ->
  join sep (init ++ [seg]) = join sep init ++ String sep seg.
Proof.
  induction init as [|x init IH]; [congruence|]. intros _.
  destruct init as [|y init].
  - reflexivity.
  - change ((x :: y :: init) ++ [seg])%list
      with (x :: ((y :: init) ++ [seg]))%list.
    rewrite join_cons by (simpl; discriminate).
    rewrite IH by discriminate.
    rewrite (@join_cons x (y :: init)) by discriminate.
    now rewrite string_append_assoc.
Qed.

Lemma snoc_view (l : list string) :
  l <> [] -> exists init seg, l = (init ++ [seg])%list.
Proof.
  intros N. destruct (exists_last N) as (init & seg & ->). eauto.
Qed.
End Paths.

(** [path.split('/').pop()] is the final segment of [path]. *)
Lemma pop_split_final_segment (path : string) :
  exists seg, pop (split slash path) = Some seg /\ is_final_segment path seg.
Proof.
  destruct (snoc_view (split_not_nil slash path)) as (init & seg & E).
  exists seg. split; [rewrite E; apply pop_snoc|].
  pose proof (split_pieces slash path) as P.
  pose proof (join_split slash path) as J.
  rewrite E in P, J. split.
  - rewrite Forall_app in P. destruct P as [_ P]. now inversion P.
  - destruct init as [|x init].
    + left. symmetry. exact J.
    + right. rewrite join_snoc in J by discriminate. eauto.
Qed.

Lemma or_default_segment (seg generic : string) :
  or_default (Some seg) generic = segment_or seg generic.
Proof. now destruct seg. Qed.

(** [path.split('/').pop() || generic]. *)
Lemma streamed_filename (path generic : string) :
  exists seg, is_final_segment path seg /\
    or_default (pop (split slash path)) generic = segment_or seg generic.
Proof.
  destruct (pop_split_final_segment path) as (seg & -> & F).
  exists seg. split; [exact F | apply or_default_segment].
Qed.

(** The final segment is unique. *)
Lemma occurs_append (c : ascii) (a b : string) :
  occurs c (a ++ b) <-> occurs c a \/ occurs c b.
Proof.
  unfold occurs. induction a as [|x a IH]; simpl.
  - tauto.
  - rewrite IH. tauto.
Qed.

Lemma final_segment_suffix (a b sa sb : string) :
  ~ occurs slash sa -> ~ occurs slash sb ->
  a ++ String slash sa = b ++ String slash sb -> sa = sb.
Proof.
  revert b. induction a as [|x a IH]; intros b Ha Hb E.
  - destruct b as [|y b]; simpl in E.
    + now inversion E.
    + inversion E; subst. exfalso. apply Ha.
      apply occurs_append. right. now left.
  - destruct b as [|y b]; simpl in E.
    + inversion E; subst. exfalso. apply Hb.
      apply occurs_append. right. now left.
    + inversion E. eauto.
Qed.

Lemma final_segment_unique (path s1 s2 : string) :
  is_final_segment path s1 -> is_final_segment path s2 -> s1 = s2.
Proof.
  intros [N1 [E1|[d1 E1]]] [N2 [E2|[d2 E2]]].
  - congruence.
  - exfalso. apply N1. rewrite <- E1, E2.
    apply occurs_append. right. now left.
  - exfalso. apply N2. rewrite <- E2, E1.
    apply occurs_append. right. now left.
  - rewrite E1 in E2. eapply final_segment_suffix; eauto.
Qed.

(** ** Running computations *)

Lemma bind_throw {A B} (log : list Event) (error : Thrown) (k : A -> M B) :
  bind (log, Throw error) k = (log, Throw error).
Proof. reflexivity. Qed.

Lemma bind_silent {A B} (a : A) (k : A -> M B) : bind ([], Normal a) k = k a.
Proof. unfold bind. now destruct (k a). Qed.

Lemma bind_ret {A B} (a : A) (k : A -> M B) : bind (ret a) k = k a.
Proof. apply bind_silent. Qed.

Lemma bind_ret_r {A} (m : M A) : bind m ret = m.
Proof.
  destruct m as [log [a|error]]; simpl; [|reflexivity].
  now rewrite app_nil_r.
Qed.

Lemma bind_assoc {A B C} (m : M A) (f : A -> M B) (g : B -> M C) :
  bind (bind m f) g = bind m (fun a => bind (f a) g).
Proof.
  destruct m as [log [a|error]]; simpl; [|reflexivity].
  destruct (f a) as [log1 [b|error]]; simpl; [|reflexivity].
  destruct (g b) as [log2 c]. now rewrite app_assoc.
Qed.

Lemma bind_normal {A B} (log : list Event) (a : A) (k : A -> M B) :
  bind (log, Normal a) k = ((log ++ events (k a))%list, completion (k a)).
Proof. unfold bind, events, completion. now destruct (k a). Qed.

Lemma try_catch_throw {A} (log : list Event) (error : Thrown)
    (h : Thrown -> M A) :
  try_catch (log, Throw error) h =
  ((log ++ events (h error))%list, completion (h error)).
Proof. unfold try_catch, events, completion. now destruct (h error). Qed.

Lemma get_object (fields : list (string * Json)) (k : string) :
  get (Some (JObj fields)) k = ([], Normal (assoc k fields)).
Proof. reflexivity. Qed.

(** ** The [catch] clause *)

Lemma catch_clause_axios {A} (e : AxiosError) :
  @catch_clause A (Axios e) =
  ([ConsoleError "API Error Details:" (api_error_details e)],
   Throw (api_error e)).
Proof.
  unfold catch_clause, api_error, remote_message. simpl.
  now destruct (ToString_value _).
Qed.

Lemma catch_clause_other {A} (error : Thrown) :
  isAxiosError error = false -> @catch_clause A error = ([], Throw error).
Proof. destruct error; simpl; intros H; (reflexivity || discriminate). Qed.

(** A non-empty string message is printed as it is. *)
Lemma api_error_string (e : AxiosError) (m : string) :
  remote_message e = Some (JStr m) -> m <> "" ->
  api_error e = NewError ("API Error: " ++ m).
Proof.
  intros H N. unfold api_error. rewrite H.
  destruct m; [congruence | reflexivity].
Qed.

(** A falsy message gives way to the description of the failure. *)
Lemma api_error_fallback (e : AxiosError) :
  truthy (remote_message e) = false ->
  api_error e = NewError ("API Error: " ++ message e).
Proof. intros H. unfold api_error, js_or. now rewrite H. Qed.

(** ** The two requests *)

Lemma axios_post_run (pf : Platform) (url : string) (payload : FormData)
    (headers : Headers) :
  axios_post pf url payload headers =
  ([Post url payload headers],
   match remote pf url payload headers with
   | Fulfilled r => Normal r
   | Rejected reason => Throw reason
   end).
Proof. unfold axios_post. now destruct (remote _ _ _ _). Qed.

Lemma erase_request_rejected pf this formData reason :
  remote pf eraseUrl formData (request_headers pf this formData)
    = Rejected reason ->
  erase_request pf this formData =
  ([Post eraseUrl formData (request_headers pf this formData)], Throw reason).
Proof.
  intros H. unfold erase_request.
  change (("x-api-key", apiKey this) :: getHeaders pf formData)
    with (request_headers pf this formData).
  rewrite axios_post_run, H. reflexivity.
Qed.

Lemma save_request_rejected pf this formData reason :
  remote pf saveLargeImageUrl formData (request_headers pf this formData)
    = Rejected reason ->
  save_request pf this formData =
  ([Post saveLargeImageUrl formData (request_headers pf this formData)],
   Throw reason).
Proof.
  intros H. unfold save_request.
  change (("x-api-key", apiKey this) :: getHeaders pf formData)
    with (request_headers pf this formData).
  rewrite axios_post_run, H. reflexivity.
Qed.

(** Whatever the service answers, a request is one POST and nothing else. *)
Lemma erase_request_events pf this formData :
  events (erase_request pf this formData) =
  [Post eraseUrl formData (request_headers pf this formData)].
Proof.
  unfold erase_request.
  change (("x-api-key", apiKey this) :: getHeaders pf formData)
    with (request_headers pf this formData).
  rewrite axios_post_run.
  destruct (remote _ _ _ _) as [r|reason]; [|reflexivity].
  rewrite bind_normal. cbv zeta.
  destruct (data r) as [| | | | |fields]; try reflexivity.
  rewrite !get_object, bind_silent.
  destruct (assoc "edited_image" fields) as [[| | | | |inner]|];
    reflexivity.
Qed.

Lemma save_request_events pf this formData :
  events (save_request pf this formData) =
  [Post saveLargeImageUrl formData (request_headers pf this formData)].
Proof.
  unfold save_request.
  change (("x-api-key", apiKey this) :: getHeaders pf formData)
    with (request_headers pf this formData).
  rewrite axios_post_run.
  destruct (remote _ _ _ _) as [r|reason]; [|reflexivity].
  rewrite bind_normal. cbv zeta.
  destruct (data r); reflexivity.
Qed.

(** Building the form performs no effect. *)
Lemma erase_formData_silent pf options :
  events (erase_formData pf options) = [].
Proof.
  unfold erase_formData.
  destruct (truthy_source _); [reflexivity|].
  destruct (truthy_text (EraseWatermarkOptions.sessionId options));
    reflexivity.
Qed.

Lemma eraseWatermark_built pf this options formData :
  completion (erase_formData pf options) = Normal formData ->
  eraseWatermark pf this options =
  try_catch (erase_request pf this formData) catch_clause.
Proof.
  intros H. unfold eraseWatermark.
  pose proof (erase_formData_silent pf options) as S.
  destruct (erase_formData pf options) as [log c].
  simpl in H, S. subst. now rewrite bind_silent.
Qed.

Lemma eraseWatermark_not_built pf this options error :
  completion (erase_formData pf options) = Throw error ->
  eraseWatermark pf this options = ([], Throw error).
Proof.
  intros H. unfold eraseWatermark.
  pose proof (erase_formData_silent pf options) as S.
  destruct (erase_formData pf options) as [log c].
  simpl in H, S. subst. reflexivity.
Qed.

(** A method that reaches its [try] block starts with its POST. *)
Lemma try_request_events {A} (m : M A) (first : Event) :
  events m = [first] ->
  exists rest, events (try_catch m catch_clause) = first :: rest.
Proof.
  destruct m as [log c]. intros E. unfold events in E. simpl in E.
  subst log. destruct c as [a|error].
  - now exists [].
  - rewrite try_catch_throw. simpl. eauto.
Qed.

Lemma eraseWatermark_posts pf this options formData :
  completion (erase_formData pf options) = Normal formData ->
  exists rest,
    events (eraseWatermark pf this options) =
    Post eraseUrl formData (request_headers pf this formData) :: rest.
Proof.
  intros H. rewrite (eraseWatermark_built _ _ _ H).
  apply try_request_events, erase_request_events.
Qed.

Lemma saveLargeImage_posts pf this options :
  exists rest,
    events (saveLargeImage pf this options) =
    Post saveLargeImageUrl (save_formData pf options)
      (request_headers pf this (save_formData pf options)) :: rest.
Proof. apply try_request_events, save_request_events. Qed.

(** The [catch] clause never posts. *)
Lemma catch_clause_no_post {A} (error : Thrown) url payload headers :
  ~ In (Post url payload headers) (events (@catch_clause A error)).
Proof.
  destruct error as [m|m|e|d]; simpl; try tauto.
  rewrite catch_clause_axios. simpl. intros [H|[]]. discriminate.
Qed.

Lemma try_request_posts {A} (m : M A) (first : Event) url payload headers :
  events m = [first] ->
  In (Post url payload headers) (events (try_catch m catch_clause)) ->
  first = Post url payload headers.
Proof.
  destruct m as [log c]. intros E. unfold events in E. simpl in E.
  subst log. destruct c as [a|error]; intros H.
  - destruct H as [H|[]]. exact H.
  - rewrite try_catch_throw in H. simpl in H.
    destruct H as [H|H]; [exact H|].
    now apply catch_clause_no_post in H.
Qed.

(** ** Building the erase request *)

Lemma truthy_source_string (s : string) :
  s <> "" -> truthy_source (Some (SrcString s)) = Some (SrcString s).
Proof. destruct s; [congruence | reflexivity]. Qed.

Lemma truthy_text_string (s : string) :
  s <> "" -> truthy_text (Some s) = Some s.
Proof. destruct s; [congruence | reflexivity]. Qed.

(** Case analysis on the optional fields of an erase request. *)
Ltac erase_cases options :=
  unfold erase_formData;
  repeat match goal with
  | H : truthy_source _ = _ |- _ => rewrite H
  | H : truthy_text _ = _ |- _ => rewrite H
  end;
  try rewrite bind_ret; cbv zeta;
  destruct (truthy_text (EraseWatermarkOptions.maskBase options));
  destruct (truthy_text (EraseWatermarkOptions.maskBrush options)).

(** C1. An erase call whose options hold neither an image source nor a
    session identifier fails with the configuration error within the call
    itself, before anything is awaited or sent: the trace of the call is
    empty, so no POST is issued. *)
Theorem eraseWatermark_needs_image_or_session
    (pf : Platform) (this : Dewatermark) (options : EraseWatermarkOptions.t) :
  EraseWatermarkOptions.originalPreviewImage options = None ->
  EraseWatermarkOptions.sessionId options = None ->
  eraseWatermark pf this options =
  ([], Throw (NewError
                "Either originalPreviewImage or sessionId must be provided")).
Proof.
  intros Himage Hsession.
  apply eraseWatermark_not_built.
  unfold erase_formData. rewrite Himage, Hsession. reflexivity.
Qed.

Lemma eraseWatermark_needs_image_or_session_witness :
  eraseWatermark demo client erase_nothing =
  ([], Throw (NewError
                "Either originalPreviewImage or sessionId must be provided")).
Proof.
  apply eraseWatermark_needs_image_or_session; reflexivity.
Defined.

(** The same holds when the two properties are present but empty. *)
Lemma eraseWatermark_needs_truthy_image_or_session
    (pf : Platform) (this : Dewatermark) (options : EraseWatermarkOptions.t) :
  truthy_source (EraseWatermarkOptions.originalPreviewImage options) = None ->
  truthy_text (EraseWatermarkOptions.sessionId options) = None ->
  eraseWatermark pf this options =
  ([], Throw (NewError
                "Either originalPreviewImage or sessionId must be provided")).
Proof.
  intros Himage Hsession.
  apply eraseWatermark_not_built.
  unfold erase_formData. rewrite Himage, Hsession. reflexivity.
Qed.

(** Against C2 as stated: the empty string, though not an existing path,
    is not decoded and attached; the call falls through to the session
    identifier. *)
Lemma empty_image_string_is_not_attached :
  EraseWatermarkOptions.originalPreviewImage erase_empty_image
    = Some (SrcString "") /\
  fs_existsSync demo "" = false /\
  erase_formData demo erase_empty_image =
    ([], Normal [mkPart "session_id" (TextBody "abc") None;
                 mkPart "remove_text" (TextBody "true") None]) /\
  ~ In (mkPart "original_preview_image"
          (BufferBody (Buffer_from_base64 demo "")) (Some "image.png"))
       [mkPart "session_id" (TextBody "abc") None;
        mkPart "remove_text" (TextBody "true") None].
Proof.
  repeat split; try reflexivity.
  simpl. intros [H|[H|[]]]; discriminate.
Qed.

(** C2, amended. A non-empty string given as image source is attached as
    the first part, [original_preview_image].  If it is an existing path
    the part is a stream over that path named after the final path
    segment, or [image.png] when that segment is empty; otherwise the part
    is the base64 decoding of the string, named [image.png].  Only the
    existence check tells the two cases apart. *)
Theorem image_string_is_path_or_base64
    (pf : Platform) (options : EraseWatermarkOptions.t) (s : string) :
  EraseWatermarkOptions.originalPreviewImage options = Some (SrcString s) ->
  s <> "" ->
  exists image_part others,
    erase_formData pf options = ([], Normal (image_part :: others)) /\
    field image_part = "original_preview_image" /\
    parts_named "original_preview_image" others = [] /\
    (fs_existsSync pf s = true ->
       body image_part = StreamBody (createReadStream s) /\
       exists seg, is_final_segment s seg /\
         filename image_part = Some (segment_or seg "image.png")) /\
    (fs_existsSync pf s = false ->
       body image_part = BufferBody (Buffer_from_base64 pf s) /\
       filename image_part = Some "image.png").
Proof.
  intros Himage Hs.
  pose proof (truthy_source_string Hs) as T.
  destruct (streamed_filename s "image.png") as (seg & Hseg & Hname).
  unfold erase_formData. rewrite Himage.
  erase_cases options; unfold append_image;
    destruct (fs_existsSync pf s) eqn:E;
    (eexists; eexists; split; [reflexivity|]);
    (split; [reflexivity|]); (split; [reflexivity|]);
    (split; intros X; try discriminate);
    (split; [reflexivity|]); simpl;
    try reflexivity;
    (exists seg; split; [exact Hseg | now rewrite Hname]).
Qed.

Lemma image_string_is_path_or_base64_witness :
  "photos/cat.png" <> "" /\
  exists image_part others,
    erase_formData demo erase_cat = ([], Normal (image_part :: others)) /\
    field image_part = "original_preview_image" /\
    filename image_part = Some "cat.png".
Proof.
  split; [discriminate|].
  destruct (@image_string_is_path_or_base64 demo erase_cat "photos/cat.png"
              eq_refl ltac:(discriminate))
    as (image_part & others & H1 & H2 & _).
  exists image_part, others. split; [exact H1|]. split; [exact H2|].
  inversion H1. reflexivity.
Defined.

(** C10. When the options hold both a non-empty image source and a session
    identifier, the call is not rejected and the image source wins: the
    form is built and is what the call posts; its first part is the image
    itself under [original_preview_image] (the stream over the path, named
    after its final segment, when the string is an existing path; the
    base64 decoding of the string otherwise; the bytes of a Buffer as they
    are); and the form has no [session_id] part. *)
Theorem image_source_takes_precedence
    (pf : Platform) (this : Dewatermark) (options : EraseWatermarkOptions.t)
    (image : ImageSource) (id : string) :
  EraseWatermarkOptions.originalPreviewImage options = Some image ->
  image <> SrcString "" ->
  EraseWatermarkOptions.sessionId options = Some id ->
  exists image_part others rest,
    erase_formData pf options = ([], Normal (image_part :: others)) /\
    events (eraseWatermark pf this options) =
      Post eraseUrl (image_part :: others)
        (request_headers pf this (image_part :: others)) :: rest /\
    field image_part = "original_preview_image" /\
    parts_named "session_id" (image_part :: others) = [] /\
    parts_named "original_preview_image" others = [] /\
    match image with
    | SrcBuffer bytes =>
        body image_part = BufferBody bytes /\
        filename image_part = Some "image.png"
    | SrcString s =>
        (fs_existsSync pf s = true ->
           body image_part = StreamBody (createReadStream s) /\
           exists seg, is_final_segment s seg /\
             filename image_part = Some (segment_or seg "image.png")) /\
        (fs_existsSync pf s = false ->
           body image_part = BufferBody (Buffer_from_base64 pf s) /\
           filename image_part = Some "image.png")
    end.
Proof.
  intros Himage Hne Hid.
  assert (T : truthy_source (Some image) = Some image).
  { destruct image as [[|c s]|b]; [congruence | reflexivity ..]. }
  assert (B : exists image_part others,
    erase_formData pf options = ([], Normal (image_part :: others)) /\
    field image_part = "original_preview_image" /\
    parts_named "session_id" (image_part :: others) = [] /\
    parts_named "original_preview_image" others = [] /\
    match image with
    | SrcBuffer bytes =>
        body image_part = BufferBody bytes /\
        filename image_part = Some "image.png"
    | SrcString s =>
        (fs_existsSync pf s = true ->
           body image_part = StreamBody (createReadStream s) /\
           exists seg, is_final_segment s seg /\
             filename image_part = Some (segment_or seg "image.png")) /\
        (fs_existsSync pf s = false ->
           body image_part = BufferBody (Buffer_from_base64 pf s) /\
           filename image_part = Some "image.png")
    end).
  { unfold erase_formData. rewrite Himage.
    destruct image as [path|buffer].
    - destruct (streamed_filename path "image.png") as (seg & Hseg & Hname).
      erase_cases options; unfold append_image;
        destruct (fs_existsSync pf path) eqn:E;
        (eexists; eexists; split; [reflexivity|]);
        (split; [reflexivity|]); (split; [reflexivity|]);
        (split; [reflexivity|]);
        (split; intros X; try discriminate);
        (split; [reflexivity|]); simpl;
        try reflexivity;
        (exists seg; split; [exact Hseg | now rewrite Hname]).
    - erase_cases options; unfold append_image;
        (eexists; eexists; split; [reflexivity|]);
        repeat (split; [reflexivity|]); reflexivity. }
  destruct B as (image_part & others & HB & Hfield & Hnone & Hone & Himg).
  destruct (@eraseWatermark_posts pf this options (image_part :: others))
    as [rest Hrest]; [now rewrite HB|].
  exists image_part, others, rest. repeat (split; [assumption|]). exact Himg.
Qed.

Lemma image_source_takes_precedence_witness :
  SrcString "photos/cat.png" <> SrcString "" /\
  exists image_part others,
    erase_formData demo erase_cat_in_session
      = ([], Normal (image_part :: others)) /\
    parts_named "session_id" (image_part :: others) = [] /\
    body image_part = StreamBody (createReadStream "photos/cat.png").
Proof.
  split; [discriminate|].
  destruct (@image_source_takes_precedence demo client erase_cat_in_session
              (SrcString "photos/cat.png") "abc"
              eq_refl ltac:(discriminate) eq_refl)
    as (image_part & others & rest & H1 & _ & _ & H4 & _ & H6).
  exists image_part, others. split; [exact H1|]. split; [exact H4|].
  exact (proj1 (proj1 H6 eq_refl)).
Defined.

(** Against C8 as stated: a brush path whose final segment is empty is
    named [mask_brush.png], not after that segment, and an empty mask
    string is not attached at all. *)
Lemma mask_fields_depart_from_the_rule :
  (is_final_segment "masks/" "" /\
   erase_formData demo erase_brush_directory =
     ([], Normal [mkPart "session_id" (TextBody "abc") None;
                  mkPart "mask_brush"
                    (StreamBody (createReadStream "masks/"))
                    (Some "mask_brush.png");
                  mkPart "remove_text" (TextBody "true") None]) /\
   Some "mask_brush.png" <> Some "") /\
  (EraseWatermarkOptions.maskBase erase_empty_mask = Some "" /\
   erase_formData demo erase_empty_mask =
     ([], Normal [mkPart "session_id" (TextBody "abc") None;
                  mkPart "remove_text" (TextBody "true") None]) /\
   parts_named "mask_base"
     [mkPart "session_id" (TextBody "abc") None;
      mkPart "remove_text" (TextBody "true") None] = []).
Proof.
  repeat split; try reflexivity; try discriminate.
  - intros [].
  - right. exists "masks". reflexivity.
Qed.

(** C8, amended. In every erase request that is built, a non-empty
    [maskBase] is attached exactly once, as the base64 decoding of the
    string under the name [mask_base.jpeg], whether or not the string is
    an existing path; a non-empty [maskBrush] is attached exactly once, as
    a stream over that path, whether or not the path exists, named after
    its final segment, or [mask_brush.png] when that segment is empty. *)
Theorem mask_fields_are_base64_and_path
    (pf : Platform) (options : EraseWatermarkOptions.t) (formData : FormData) :
  erase_formData pf options = ([], Normal formData) ->
  (forall mask, EraseWatermarkOptions.maskBase options = Some mask ->
     mask <> "" ->
     parts_named "mask_base" formData =
       [mkPart "mask_base" (BufferBody (Buffer_from_base64 pf mask))
          (Some "mask_base.jpeg")]) /\
  (forall brush, EraseWatermarkOptions.maskBrush options = Some brush ->
     brush <> "" ->
     exists seg, is_final_segment brush seg /\
       parts_named "mask_brush" formData =
         [mkPart "mask_brush" (StreamBody (createReadStream brush))
            (Some (segment_or seg "mask_brush.png"))]).
Proof.
  intros Hbuilt. split.
  - intros mask Hmask Hne. revert Hbuilt.
    unfold erase_formData. rewrite Hmask, (truthy_text_string Hne).
    destruct (truthy_source _) as [[path|buffer]|];
      [unfold append_image; destruct (fs_existsSync pf path) | |
       destruct (truthy_text (EraseWatermarkOptions.sessionId options));
       [|discriminate]];
      rewrite bind_ret; cbv zeta;
      destruct (truthy_text (EraseWatermarkOptions.maskBrush options));
      intros H; inversion H; reflexivity.
  - intros brush Hbrush Hne.
    destruct (streamed_filename brush "mask_brush.png") as (seg & Hseg & Hn).
    exists seg. split; [exact Hseg|]. revert Hbuilt.
    unfold erase_formData. rewrite Hbrush, (truthy_text_string Hne), Hn.
    destruct (truthy_source _) as [[path|buffer]|];
      [unfold append_image; destruct (fs_existsSync pf path) | |
       destruct (truthy_text (EraseWatermarkOptions.sessionId options));
       [|discriminate]];
      rewrite bind_ret; cbv zeta;
      destruct (truthy_text (EraseWatermarkOptions.maskBase options));
      intros H; inversion H; reflexivity.
Qed.

Lemma mask_fields_are_base64_and_path_witness :
  erase_formData demo erase_refine = ([], Normal refine_form) /\
  "QUJD" <> "" /\
  parts_named "mask_base" refine_form =
  [mkPart "mask_base" (BufferBody (Buffer_from_base64 demo "QUJD"))
     (Some "mask_base.jpeg")].
Proof.
  split; [reflexivity|]. split; [discriminate|].
  apply (proj1 (@mask_fields_are_base64_and_path demo erase_refine
                  refine_form eq_refl) "QUJD" eq_refl).
  discriminate.
Defined.

(** ** The text-removal flag *)

Lemma removeText_text (flag : option bool) :
  nullish (option_map Boolean_toString flag) "true" = flag_text flag.
Proof. now destruct flag as [[|]|]. Qed.





(** ** Saving a large image *)

(** Against C7 as stated: a session identifier set to the empty string is
    not attached, so the body has two parts. *)
Lemma save_empty_session_is_not_attached :
  save_empty_session = save_only "QUJD" "" /\
  save_formData demo save_empty_session =
    [mkPart "preview_image_to_save" (BufferBody [x41; x42; x43])
       (Some "preview_image_to_save.jpeg");
     mkPart "remove_text" (TextBody "true") None] /\
  parts_named "session_id" (save_formData demo save_empty_session) = [].
Proof. repeat split. Qed.

(** C7, amended. A save call with only [sessionId] and
    [previewImageToSave] set, both to non-empty strings, posts exactly three
    parts: the base64 decoding of the preview under
    [preview_image_to_save], the session identifier as text under
    [session_id] and [remove_text] reading ["true"].  When the service
    answers with a body whose [large_image_to_save] field is [x], the call
    returns [x] as [largeImageToSave]. *)
Theorem save_with_preview_and_session
    (pf : Platform) (this : Dewatermark) (preview id : string) :
  preview <> "" -> id <> "" ->
  save_formData pf (save_only preview id) =
    [mkPart "preview_image_to_save"
       (BufferBody (Buffer_from_base64 pf preview))
       (Some "preview_image_to_save.jpeg");
     mkPart "session_id" (TextBody id) None;
     mkPart "remove_text" (TextBody "true") None] /\
  (forall r x,
     remote pf saveLargeImageUrl (save_formData pf (save_only preview id))
       (request_headers pf this (save_formData pf (save_only preview id)))
       = Fulfilled r ->
     optional_get (Some (data r)) "large_image_to_save" = Some x ->
     saveLargeImage pf this (save_only preview id) =
       ([Post saveLargeImageUrl (save_formData pf (save_only preview id))
           (request_headers pf this (save_formData pf (save_only preview id)))],
        Normal (SaveLargeImageResponse.mk (Some x)))).
Proof.
  intros Hp Hid. split.
  - destruct preview as [|c p]; [congruence|].
    destruct id as [|d i]; [congruence|]. reflexivity.
  - intros r x Hr Hx. unfold saveLargeImage, save_request.
    change (("x-api-key", apiKey this) :: getHeaders pf ?f)
      with (request_headers pf this f).
    rewrite axios_post_run, Hr, bind_normal. cbv zeta.
    destruct (data r) as [| | | | |fields]; try discriminate.
    simpl in Hx. rewrite get_object, Hx. reflexivity.
Qed.

Lemma save_with_preview_and_session_witness :
  "QUJD" <> "" /\ "abc" <> "" /\
  save_formData demo save_preview =
    [mkPart "preview_image_to_save"
       (BufferBody (Buffer_from_base64 demo "QUJD"))
       (Some "preview_image_to_save.jpeg");
     mkPart "session_id" (TextBody "abc") None;
     mkPart "remove_text" (TextBody "true") None].
Proof.
  split; [discriminate|]. split; [discriminate|].
  apply (proj1 (@save_with_preview_and_session demo client "QUJD" "abc"
                  ltac:(discriminate) ltac:(discriminate))).
Defined.

(** ** Mapping the response *)

(** The mapping reads the four fields wherever they stand in the body. *)
Lemma erase_request_fulfilled pf this formData r fields inner :
  remote pf eraseUrl formData (request_headers pf this formData)
    = Fulfilled r ->
  data r = JObj fields ->
  assoc "edited_image" fields = Some (JObj inner) ->
  erase_request pf this formData =
  ([Post eraseUrl formData (request_headers pf this formData)],
   Normal (EraseWatermarkResponse.mk
             (assoc "session_id" fields) (assoc "image" inner)
             (assoc "mask" inner) (assoc "watermark_mask" inner))).
Proof.
  intros Hr Hdata Hinner. unfold erase_request.
  change (("x-api-key", apiKey this) :: getHeaders pf formData)
    with (request_headers pf this formData).
  rewrite axios_post_run, Hr, bind_normal. cbv zeta.
  rewrite Hdata, !get_object, bind_silent, bind_silent, Hinner.
  rewrite !get_object, !bind_silent. reflexivity.
Qed.

(** C4. When the service answers an erase call with the body
    [{ session_id: s, edited_image: { image: a, mask: b, watermark_mask: c } }],
    the call performs its one POST and returns
    [{ sessionId: s, imageBase64: a, maskBase: b, watermarkMask: c }], the
    four values being those of the body. *)
Theorem eraseWatermark_renames_fields
    (pf : Platform) (this : Dewatermark) (options : EraseWatermarkOptions.t)
    (formData : FormData) (r : AxiosResponse) (s a b c : Json) :
  erase_formData pf options = ([], Normal formData) ->
  remote pf eraseUrl formData (request_headers pf this formData)
    = Fulfilled r ->
  data r = JObj [("session_id", s);
                 ("edited_image",
                  JObj [("image", a); ("mask", b); ("watermark_mask", c)])] ->
  eraseWatermark pf this options =
  ([Post eraseUrl formData (request_headers pf this formData)],
   Normal (EraseWatermarkResponse.mk (Some s) (Some a) (Some b) (Some c))).
Proof.
  intros Hbuilt Hr Hdata.
  rewrite (@eraseWatermark_built pf this options formData)
    by now rewrite Hbuilt.
  rewrite (erase_request_fulfilled _ _ _ Hr Hdata eq_refl).
  reflexivity.
Qed.

Lemma eraseWatermark_renames_fields_witness :
  erase_formData demo erase_cat = ([], Normal cat_form) /\
  eraseWatermark demo client erase_cat =
  ([Post eraseUrl cat_form (request_headers demo client cat_form)],
   Normal (EraseWatermarkResponse.mk (Some (JStr "abc")) (Some (JStr "A"))
             (Some (JStr "B")) (Some (JStr "C")))).
Proof.
  split; [reflexivity|].
  apply (@eraseWatermark_renames_fields demo client erase_cat cat_form
           erase_success (JStr "abc") (JStr "A") (JStr "B") (JStr "C"));
    reflexivity.
Defined.

(** ** Failures *)

Lemma eraseWatermark_rejected pf this options formData reason :
  erase_formData pf options = ([], Normal formData) ->
  remote pf eraseUrl formData (request_headers pf this formData)
    = Rejected reason ->
  eraseWatermark pf this options =
  (Post eraseUrl formData (request_headers pf this formData)
     :: events (@catch_clause EraseWatermarkResponse.t reason),
   completion (@catch_clause EraseWatermarkResponse.t reason)).
Proof.
  intros Hbuilt Hr.
  rewrite (@eraseWatermark_built pf this options formData)
    by now rewrite Hbuilt.
  rewrite (erase_request_rejected _ _ _ Hr), try_catch_throw. reflexivity.
Qed.

Lemma saveLargeImage_rejected pf this options reason :
  remote pf saveLargeImageUrl (save_formData pf options)
    (request_headers pf this (save_formData pf options)) = Rejected reason ->
  saveLargeImage pf this options =
  (Post saveLargeImageUrl (save_formData pf options)
     (request_headers pf this (save_formData pf options))
     :: events (@catch_clause SaveLargeImageResponse.t reason),
   completion (@catch_clause SaveLargeImageResponse.t reason)).
Proof.
  intros Hr. unfold saveLargeImage.
  rewrite (save_request_rejected _ _ _ Hr), try_catch_throw. reflexivity.
Qed.

(** Against C3 as stated: two failures that differ in status, status text
    and body surface as one and the same error, which therefore carries
    none of the three. *)
Lemma surfaced_error_forgets_the_response :
  option_map status (response quota_exceeded) = Some 429%Z /\
  option_map status (response payment_required) = Some 402%Z /\
  option_map statusText (response quota_exceeded)
    <> option_map statusText (response payment_required) /\
  option_map data (response quota_exceeded)
    <> option_map data (response payment_required) /\
  completion (eraseWatermark over_quota client erase_cat)
    = Throw (NewError "API Error: quota exceeded") /\
  completion (eraseWatermark unpaid client erase_cat)
    = Throw (NewError "API Error: quota exceeded") /\
  completion (saveLargeImage over_quota client save_preview)
    = Throw (NewError "API Error: quota exceeded") /\
  completion (saveLargeImage unpaid client save_preview)
    = Throw (NewError "API Error: quota exceeded").
Proof. repeat split; try reflexivity; discriminate. Qed.

(** The error built by the [catch] clause, by cases on the message field
    of the body. *)
Lemma api_error_truthy (e : AxiosError) (v : Json) (text : string) :
  remote_message e = Some v -> truthy (Some v) = true ->
  ToString v = Some text ->
  api_error e = NewError ("API Error: " ++ text).
Proof.
  intros Hm Ht Hs. unfold api_error, js_or. rewrite Hm, Ht. simpl.
  now rewrite Hs.
Qed.

Lemma api_error_unprintable (e : AxiosError) (v : Json) :
  remote_message e = Some v -> truthy (Some v) = true ->
  ToString v = None ->
  api_error e = TypeError "Cannot convert object to primitive value".
Proof.
  intros Hm Ht Hs. unfold api_error, js_or. rewrite Hm, Ht. simpl.
  now rewrite Hs.
Qed.

(** The error depends on the message field and on the description of the
    failure, and on nothing else of the Axios error. *)
Lemma api_error_determined (e e' : AxiosError) :
  remote_message e' = remote_message e -> message e' = message e ->
  api_error e' = api_error e.
Proof. intros Hm Hd. unfold api_error. now rewrite Hm, Hd. Qed.

(** C3, amended. When the POST of either method fails with an Axios
    error, the method writes the status, the status text and the body of
    the response (each [undefined] when there is no response) to
    [console.error] and throws an error that carries none of them: the
    error holds a message only and is determined by the message field of
    the body and the description of the failure alone.  It is an Error
    reading ["API Error: "] followed by the message field printed as text
    when that field is truthy, and by the description of the failure when
    the field is absent or falsy; when a truthy field is an object that
    cannot be printed, it is a TypeError.  Nothing else is sent or
    logged. *)
Theorem axios_failure_is_logged_and_reduced_to_a_message
    (pf : Platform) (this : Dewatermark) (e : AxiosError) :
  (forall options formData,
     erase_formData pf options = ([], Normal formData) ->
     remote pf eraseUrl formData (request_headers pf this formData)
       = Rejected (Axios e) ->
     eraseWatermark pf this options =
     ([Post eraseUrl formData (request_headers pf this formData);
       ConsoleError "API Error Details:"
         (mkDetails (option_map status (response e))
                    (option_map statusText (response e))
                    (option_map data (response e)))],
      Throw (api_error e))) /\
  (forall options,
     remote pf saveLargeImageUrl (save_formData pf options)
       (request_headers pf this (save_formData pf options))
       = Rejected (Axios e) ->
     saveLargeImage pf this options =
     ([Post saveLargeImageUrl (save_formData pf options)
         (request_headers pf this (save_formData pf options));
       ConsoleError "API Error Details:"
         (mkDetails (option_map status (response e))
                    (option_map statusText (response e))
                    (option_map data (response e)))],
      Throw (api_error e))) /\
  (forall v text,
     remote_message e = Some v -> truthy (Some v) = true ->
     ToString v = Some text ->
     api_error e = NewError ("API Error: " ++ text)) /\
  (forall v,
     remote_message e = Some v -> truthy (Some v) = true ->
     ToString v = None ->
     api_error e = TypeError "Cannot convert object to primitive value") /\
  (truthy (remote_message e) = false ->
     api_error e = NewError ("API Error: " ++ message e)) /\
  (forall e',
     remote_message e' = remote_message e -> message e' = message e ->
     api_error e' = api_error e) /\
  (forall m, remote_message e = Some (JStr m) -> m <> "" ->
     api_error e = NewError ("API Error: " ++ m)).
Proof.
  split; [|split; [|split; [|split; [|split; [|split]]]]].
  - intros options formData Hbuilt Hr.
    rewrite (@eraseWatermark_rejected pf this options formData _ Hbuilt Hr),
      catch_clause_axios.
    reflexivity.
  - intros options Hr.
    rewrite (@saveLargeImage_rejected pf this options _ Hr),
      catch_clause_axios.
    reflexivity.
  - intros v text. apply api_error_truthy.
  - intros v. apply api_error_unprintable.
  - apply api_error_fallback.
  - intros e'. apply api_error_determined.
  - intros m. apply api_error_string.
Qed.

Lemma axios_failure_is_logged_and_reduced_to_a_message_witness :
  saveLargeImage over_quota client save_preview =
  ([Post saveLargeImageUrl (save_formData over_quota save_preview)
      (request_headers over_quota client
         (save_formData over_quota save_preview));
    ConsoleError "API Error Details:"
      (mkDetails (Some 429%Z) (Some "Too Many Requests")
         (Some (JObj [("message", JStr "quota exceeded")])))],
   Throw (NewError "API Error: quota exceeded")) /\
  api_error unprintable_failure
    = TypeError "Cannot convert object to primitive value".
Proof.
  split.
  - apply (proj1 (proj2 (axios_failure_is_logged_and_reduced_to_a_message
                           over_quota client quota_exceeded)) save_preview).
    reflexivity.
  - apply (proj1 (proj2 (proj2 (proj2
             (axios_failure_is_logged_and_reduced_to_a_message
                garbling client unprintable_failure))))
             (JObj [("toString", JStr "x")]));
      reflexivity.
Defined.

Lemma string_append_empty (s : string) : s ++ "" = s.
Proof. induction s as [|c s IH]; simpl; [reflexivity | now rewrite IH]. Qed.

Lemma contains_suffix (before s : string) : contains s (before ++ s).
Proof. exists before, "". now rewrite string_append_empty. Qed.

Lemma contains_empty (s : string) : contains "" s.
Proof. now exists "", s. Qed.

(** The message built by the [catch] clause, by cases on the body. *)
Lemma api_error_prefers_remote_message {A} (e : AxiosError) :
  prefers_remote_message e (@Throw A (api_error e)).
Proof.
  split.
  - intros m Hm. destruct m as [|c m].
    + exists ("API Error: " ++ message e). split; [|split].
      * rewrite api_error_fallback; [reflexivity | now rewrite Hm].
      * apply contains_empty.
      * congruence.
    + exists ("API Error: " ++ String c m). split; [|split].
      * rewrite (api_error_string e Hm); [reflexivity | discriminate].
      * apply contains_suffix.
      * reflexivity.
  - intros Hnone. rewrite api_error_fallback; [reflexivity | now rewrite Hnone].
Qed.

Lemma starts_with_prefix (needle after : string) :
  starts_with needle (needle ++ after) = true.
Proof.
  induction needle as [|c needle IH]; [now destruct after|].
  simpl. now rewrite Ascii.eqb_refl, IH.
Qed.

(** [includes] finds every occurrence. *)
Lemma contains_includes (needle hay : string) :
  contains needle hay -> includes needle hay = true.
Proof.
  intros (before & after & ->).
  induction before as [|c before IH]; simpl.
  - pose proof (starts_with_prefix needle after) as P.
    destruct (needle ++ after); simpl; [exact P | now rewrite P].
  - rewrite IH. apply Bool.orb_true_r.
Qed.

Lemma api_error_follows_message_field {A} (e : AxiosError) :
  follows_message_field e (@Throw A (api_error e)).
Proof.
  split; [|split].
  - intros v text Hm Ht Hs. split.
    + now rewrite (api_error_truthy e Hm Ht Hs).
    + apply contains_suffix.
  - intros v Hm Ht Hs. now rewrite (api_error_unprintable e Hm Ht Hs).
  - intros Hf. now rewrite (api_error_fallback e Hf).
Qed.

(** Against C6 as stated: a body whose message field is [false] has a
    message field, yet the message of the error thrown is built from the
    description of the failure and does not contain the field. *)
Lemma falsy_message_field_is_not_in_the_message :
  remote_message refused = Some (JBool false) /\
  ToString (JBool false) = Some "false" /\
  completion (eraseWatermark refusing client erase_cat) =
    Throw (NewError "API Error: Request failed with status code 400") /\
  completion (saveLargeImage refusing client save_preview) =
    Throw (NewError "API Error: Request failed with status code 400") /\
  ~ contains "false" "API Error: Request failed with status code 400".
Proof.
  repeat split.
  intros H. apply contains_includes in H. discriminate H.
Qed.

(** C6, amended. When the POST of either method fails with an Axios
    error, the message of the error thrown follows the message field of
    the response body when that field is truthy: it is ["API Error: "]
    followed by the field printed as text, and so contains it (a body
    [{ message: "quota exceeded" }] gives a message that contains
    ["quota exceeded"]).  When the field is absent or falsy ([null],
    [false], [0], the empty string), or there is no response, the message
    is ["API Error: "] followed by the description of the transport
    failure.  When a truthy field is an object that cannot be printed, a
    TypeError is thrown instead. *)
Theorem error_message_prefers_remote_message
    (pf : Platform) (this : Dewatermark) (e : AxiosError) :
  (forall options formData,
     erase_formData pf options = ([], Normal formData) ->
     remote pf eraseUrl formData (request_headers pf this formData)
       = Rejected (Axios e) ->
     follows_message_field e (completion (eraseWatermark pf this options)) /\
     prefers_remote_message e (completion (eraseWatermark pf this options)))
  /\
  (forall options,
     remote pf saveLargeImageUrl (save_formData pf options)
       (request_headers pf this (save_formData pf options))
       = Rejected (Axios e) ->
     follows_message_field e (completion (saveLargeImage pf this options)) /\
     prefers_remote_message e (completion (saveLargeImage pf this options))).
Proof.
  split.
  - intros options formData Hbuilt Hr.
    rewrite (@eraseWatermark_rejected pf this options formData _ Hbuilt Hr),
      catch_clause_axios.
    split; [apply api_error_follows_message_field
           | apply api_error_prefers_remote_message].
  - intros options Hr.
    rewrite (@saveLargeImage_rejected pf this options _ Hr),
      catch_clause_axios.
    split; [apply api_error_follows_message_field
           | apply api_error_prefers_remote_message].
Qed.

Lemma error_message_prefers_remote_message_witness :
  remote_message quota_exceeded = Some (JStr "quota exceeded") /\
  completion (eraseWatermark over_quota client erase_cat)
    = Throw (NewError "API Error: quota exceeded") /\
  contains "quota exceeded" "API Error: quota exceeded".
Proof.
  split; [reflexivity|].
  exact (proj1 (proj1 (proj1 (error_message_prefers_remote_message
                                over_quota client quota_exceeded)
                         erase_cat cat_form eq_refl eq_refl))
           (JStr "quota exceeded") "quota exceeded" eq_refl eq_refl eq_refl).
Defined.

(** The fallback on a concrete transport failure. *)
Lemma error_message_falls_back_when_offline :
  completion (eraseWatermark offline client erase_cat)
    = Throw (NewError "API Error: connect ECONNREFUSED 127.0.0.1:443").
Proof. reflexivity. Qed.

Lemma erase_unguarded_built pf this options formData :
  completion (erase_formData pf options) = Normal formData ->
  erase_unguarded pf this options = erase_request pf this formData.
Proof.
  intros H. unfold erase_unguarded.
  pose proof (erase_formData_silent pf options) as S.
  destruct (erase_formData pf options) as [log c].
  simpl in H, S. subst. now rewrite bind_silent.
Qed.

Lemma erase_unguarded_not_built pf this options error :
  completion (erase_formData pf options) = Throw error ->
  erase_unguarded pf this options = ([], Throw error).
Proof.
  intros H. unfold erase_unguarded.
  pose proof (erase_formData_silent pf options) as S.
  destruct (erase_formData pf options) as [log c].
  simpl in H, S. subst. reflexivity.
Qed.

(** C9. A failure of either method that is not an Axios error reaches the
    caller as it was raised: if the method body, taken without its
    [try]/[catch], ends by throwing [error] after the events [log], then so
    does the method, with the same [error] and nothing logged in
    addition. *)
Theorem other_failures_propagate_unchanged
    (pf : Platform) (this : Dewatermark) (log : list Event) (error : Thrown) :
  isAxiosError error = false ->
  (forall options,
     erase_unguarded pf this options = (log, Throw error) ->
     eraseWatermark pf this options = (log, Throw error)) /\
  (forall options,
     save_unguarded pf this options = (log, Throw error) ->
     saveLargeImage pf this options = (log, Throw error)).
Proof.
  intros Hother. split.
  - intros options.
    destruct (completion (erase_formData pf options)) as [fd|err] eqn:B.
    + rewrite (@eraseWatermark_built pf this options fd B),
        (@erase_unguarded_built pf this options fd B).
      intros ->.
      rewrite try_catch_throw, (catch_clause_other _ Hother).
      simpl. now rewrite app_nil_r.
    + rewrite (@eraseWatermark_not_built pf this options err B),
        (@erase_unguarded_not_built pf this options err B).
      auto.
  - intros options. unfold save_unguarded, saveLargeImage. intros ->.
    rewrite try_catch_throw, (catch_clause_other _ Hother).
    simpl. now rewrite app_nil_r.
Qed.

Lemma other_failures_propagate_unchanged_witness :
  isAxiosError (Foreign "ENOENT: no such file or directory, open 'x.png'")
    = false /\
  eraseWatermark unreadable client erase_cat =
  ([Post eraseUrl cat_form (request_headers unreadable client cat_form)],
   Throw (Foreign "ENOENT: no such file or directory, open 'x.png'")).
Proof.
  split; [reflexivity|].
  apply (proj1 (@other_failures_propagate_unchanged unreadable client
                  [Post eraseUrl cat_form
                     (request_headers unreadable client cat_form)]
                  (Foreign "ENOENT: no such file or directory, open 'x.png'")
                  eq_refl) erase_cat).
  reflexivity.
Defined.

(** The configuration error and a failure of the response mapping are
    further instances. *)
Lemma configuration_error_is_not_wrapped :
  erase_unguarded demo client erase_nothing =
    ([], Throw (NewError
                  "Either originalPreviewImage or sessionId must be provided"))
  /\
  eraseWatermark demo client erase_nothing =
    ([], Throw (NewError
                  "Either originalPreviewImage or sessionId must be provided")).
Proof. split; reflexivity. Qed.

Lemma mapping_failure_is_not_wrapped :
  eraseWatermark (platform_with demo_disk (Fulfilled save_success)) client
    erase_cat =
  ([Post eraseUrl cat_form (request_headers demo client cat_form)],
   Throw (TypeError "Cannot read properties of undefined (reading 'image')")).
Proof. reflexivity. Qed.

(** * Further properties of the two methods *)

(** ** What is sent, and how often *)

(** X1. Every request of [eraseWatermark] goes to the erase endpoint and
    every request of [saveLargeImage] to the save endpoint; its body is the
    form the method built and its headers are the API key of the client
    under [x-api-key] followed by the multipart content type. *)
Theorem every_request_carries_the_api_key (pf : Platform) (this : Dewatermark) :
  (forall options url payload headers,
     In (Post url payload headers) (events (eraseWatermark pf this options)) ->
     url = eraseUrl /\
     erase_formData pf options = ([], Normal payload) /\
     headers =
       [("x-api-key", apiKey this);
        ("content-type",
         "multipart/form-data; boundary=" ++ FormData_boundary pf)]) /\
  (forall options url payload headers,
     In (Post url payload headers) (events (saveLargeImage pf this options)) ->
     url = saveLargeImageUrl /\
     payload = save_formData pf options /\
     headers =
       [("x-api-key", apiKey this);
        ("content-type",
         "multipart/form-data; boundary=" ++ FormData_boundary pf)]).
Proof.
  split.
  - intros options url payload headers Hin.
    destruct (completion (erase_formData pf options)) as [fd|error] eqn:B.
    + rewrite (eraseWatermark_built _ _ _ B) in Hin.
      eapply try_request_posts in Hin; [|apply erase_request_events].
      inversion Hin; subst. repeat split.
      pose proof (erase_formData_silent pf options) as S.
      destruct (erase_formData pf options) as [log c].
      simpl in B, S. now subst.
    + rewrite (eraseWatermark_not_built _ _ _ B) in Hin. destruct Hin.
  - intros options url payload headers Hin. unfold saveLargeImage in Hin.
    eapply try_request_posts in Hin; [|apply save_request_events].
    inversion Hin; subst. repeat split.
Qed.

Lemma every_request_carries_the_api_key_witness :
  In (Post eraseUrl cat_form (request_headers demo client cat_form))
     (events (eraseWatermark demo client erase_cat)) /\
  request_headers demo client cat_form =
    [("x-api-key", "secret-key");
     ("content-type",
      "multipart/form-data; boundary=" ++ FormData_boundary demo)].
Proof.
  assert (H : In (Post eraseUrl cat_form (request_headers demo client cat_form))
                 (events (eraseWatermark demo client erase_cat))).
  { left. reflexivity. }
  split; [exact H|].
  exact (proj2 (proj2 (proj1 (every_request_carries_the_api_key demo client)
                         erase_cat _ _ _ H))).
Defined.

(** The [catch] clause is silent on anything but an Axios error. *)
Lemma try_catch_other {A} (log : list Event) (c : Completion A) :
  match c with Throw error => isAxiosError error = false | Normal _ => True end ->
  try_catch (log, c) catch_clause = (log, c).
Proof.
  destruct c as [a|error]; [reflexivity|]. intros H.
  rewrite try_catch_throw, (catch_clause_other _ H). simpl.
  now rewrite app_nil_r.
Qed.

(** A fulfilled POST can only fail in the mapping, with a TypeError. *)
Lemma erase_request_fulfilled_completion pf this formData r :
  remote pf eraseUrl formData (request_headers pf this formData)
    = Fulfilled r ->
  match completion (erase_request pf this formData) with
  | Throw error => isAxiosError error = false
  | Normal _ => True
  end.
Proof.
  intros Hr. unfold erase_request.
  change (("x-api-key", apiKey this) :: getHeaders pf formData)
    with (request_headers pf this formData).
  rewrite axios_post_run, Hr, bind_normal. cbv zeta.
  destruct (data r) as [| | | | |fields]; try reflexivity.
  rewrite !get_object, bind_silent.
  destruct (assoc "edited_image" fields) as [[| | | | |inner]|];
    reflexivity.
Qed.

Lemma save_request_fulfilled_completion pf this formData r :
  remote pf saveLargeImageUrl formData (request_headers pf this formData)
    = Fulfilled r ->
  match completion (save_request pf this formData) with
  | Throw error => isAxiosError error = false
  | Normal _ => True
  end.
Proof.
  intros Hr. unfold save_request.
  change (("x-api-key", apiKey this) :: getHeaders pf formData)
    with (request_headers pf this formData).
  rewrite axios_post_run, Hr, bind_normal. cbv zeta.
  destruct (data r); reflexivity.
Qed.

Lemma surjective_run {A} (m : M A) : m = (events m, completion m).
Proof. now destruct m. Qed.

(** The trace of an erase call, by cases on what happened. *)
Lemma eraseWatermark_trace pf this options :
  match completion (erase_formData pf options) with
  | Throw _ => events (eraseWatermark pf this options) = []
  | Normal formData =>
      match remote pf eraseUrl formData
              (request_headers pf this formData) with
      | Rejected (Axios e) =>
          events (eraseWatermark pf this options) =
          [Post eraseUrl formData (request_headers pf this formData);
           ConsoleError "API Error Details:" (api_error_details e)]
      | _ =>
          events (eraseWatermark pf this options) =
          [Post eraseUrl formData (request_headers pf this formData)]
      end
  end.
Proof.
  destruct (completion (erase_formData pf options)) as [fd|error] eqn:B.
  - rewrite (eraseWatermark_built _ _ _ B).
    destruct (remote pf eraseUrl fd (request_headers pf this fd))
      as [r|reason] eqn:Hr.
    + pose proof (erase_request_fulfilled_completion _ _ _ Hr) as C.
      rewrite (surjective_run (erase_request pf this fd)).
      rewrite (try_catch_other _ _ C). apply erase_request_events.
    + rewrite (erase_request_rejected _ _ _ Hr), try_catch_throw.
      destruct reason as [m|m|e|d]; try reflexivity.
      now rewrite catch_clause_axios.
  - now rewrite (eraseWatermark_not_built _ _ _ B).
Qed.

(** The trace of a save call. *)
Lemma saveLargeImage_trace pf this options :
  match remote pf saveLargeImageUrl (save_formData pf options)
          (request_headers pf this (save_formData pf options)) with
  | Rejected (Axios e) =>
      events (saveLargeImage pf this options) =
      [Post saveLargeImageUrl (save_formData pf options)
         (request_headers pf this (save_formData pf options));
       ConsoleError "API Error Details:" (api_error_details e)]
  | _ =>
      events (saveLargeImage pf this options) =
      [Post saveLargeImageUrl (save_formData pf options)
         (request_headers pf this (save_formData pf options))]
  end.
Proof.
  unfold saveLargeImage.
  destruct (remote pf saveLargeImageUrl (save_formData pf options)
              (request_headers pf this (save_formData pf options)))
    as [r|reason] eqn:Hr.
  - pose proof (save_request_fulfilled_completion _ _ _ Hr) as C.
    rewrite (surjective_run (save_request pf this _)).
    rewrite (try_catch_other _ _ C). apply save_request_events.
  - rewrite (save_request_rejected _ _ _ Hr), try_catch_throw.
    destruct reason as [m|m|e|d]; try reflexivity.
    now rewrite catch_clause_axios.
Qed.

(** X2. A call performs at most one POST and never repeats it; it writes
    to [console.error] exactly when that POST fails with an Axios error,
    and then once.  An erase call that fails to build its form does
    nothing at all. *)
Theorem one_request_per_call (pf : Platform) (this : Dewatermark) :
  (forall options,
     match completion (erase_formData pf options) with
     | Throw _ => events (eraseWatermark pf this options) = []
     | Normal formData =>
         match remote pf eraseUrl formData
                 (request_headers pf this formData) with
         | Rejected (Axios e) =>
             events (eraseWatermark pf this options) =
             [Post eraseUrl formData (request_headers pf this formData);
              ConsoleError "API Error Details:" (api_error_details e)]
         | _ =>
             events (eraseWatermark pf this options) =
             [Post eraseUrl formData (request_headers pf this formData)]
         end
     end) /\
  (forall options,
     match remote pf saveLargeImageUrl (save_formData pf options)
             (request_headers pf this (save_formData pf options)) with
     | Rejected (Axios e) =>
         events (saveLargeImage pf this options) =
         [Post saveLargeImageUrl (save_formData pf options)
            (request_headers pf this (save_formData pf options));
          ConsoleError "API Error Details:" (api_error_details e)]
     | _ =>
         events (saveLargeImage pf this options) =
         [Post saveLargeImageUrl (save_formData pf options)
            (request_headers pf this (save_formData pf options))]
     end).
Proof.
  split; intros options;
    [apply eraseWatermark_trace | apply saveLargeImage_trace].
Qed.

(** ** The parts of a form *)

(** X3. [saveLargeImage] checks nothing before sending: when every
    option is unset or empty, it still posts, and the body holds the
    [remove_text] field alone. *)
Theorem saveLargeImage_sends_a_bare_form
    (pf : Platform) (this : Dewatermark) (options : SaveLargeImageOptions.t) :
  truthy_source (SaveLargeImageOptions.originalLargeImage options) = None ->
  truthy_text (SaveLargeImageOptions.previewImageToSave options) = None ->
  truthy_text (SaveLargeImageOptions.previewMaskToSave options) = None ->
  truthy_text (SaveLargeImageOptions.sessionId options) = None ->
  exists rest,
    events (saveLargeImage pf this options) =
    Post saveLargeImageUrl
      [mkPart "remove_text"
         (TextBody (flag_text (SaveLargeImageOptions.removeText options)))
         None]
      (request_headers pf this
         [mkPart "remove_text"
            (TextBody (flag_text (SaveLargeImageOptions.removeText options)))
            None])
    :: rest.
Proof.
  intros H1 H2 H3 H4.
  assert (F : save_formData pf options =
              [mkPart "remove_text"
                 (TextBody (flag_text (SaveLargeImageOptions.removeText options)))
                 None]).
  { unfold save_formData. rewrite H1, H2, H3, H4, removeText_text.
    reflexivity. }
  destruct (saveLargeImage_posts pf this options) as [rest Hrest].
  exists rest. now rewrite Hrest, F.
Qed.

Lemma saveLargeImage_sends_a_bare_form_witness :
  exists rest,
    events (saveLargeImage demo client save_nothing) =
    Post saveLargeImageUrl [mkPart "remove_text" (TextBody "false") None]
      (request_headers demo client
         [mkPart "remove_text" (TextBody "false") None])
    :: rest.
Proof.
  exact (@saveLargeImage_sends_a_bare_form demo client save_nothing
           eq_refl eq_refl eq_refl eq_refl).
Defined.

(** X4. A Buffer given as image source is attached as it is, under the
    name [image.png]: it is neither looked up on disk nor decoded, and it
    is attached even when it is empty. *)
Theorem buffer_image_is_attached_as_it_is (pf : Platform) (bytes : list byte) :
  (forall options,
     EraseWatermarkOptions.originalPreviewImage options
       = Some (SrcBuffer bytes) ->
     exists others,
       erase_formData pf options =
       ([], Normal (mkPart "original_preview_image" (BufferBody bytes)
                      (Some "image.png") :: others)) /\
       parts_named "original_preview_image" others = []) /\
  (forall options,
     SaveLargeImageOptions.originalLargeImage options
       = Some (SrcBuffer bytes) ->
     exists others,
       save_formData pf options =
       mkPart "original_large_image" (BufferBody bytes) (Some "image.png")
         :: others /\
       parts_named "original_large_image" others = []).
Proof.
  split.
  - intros options H. unfold erase_formData. rewrite H.
    erase_cases options; eexists; split; reflexivity.
  - intros options H. unfold save_formData. rewrite H. simpl truthy_source.
    cbv iota. unfold append_image.
    destruct (truthy_text (SaveLargeImageOptions.previewImageToSave options));
    destruct (truthy_text (SaveLargeImageOptions.previewMaskToSave options));
    destruct (truthy_text (SaveLargeImageOptions.sessionId options));
    eexists; split; reflexivity.
Qed.

Lemma buffer_image_is_attached_as_it_is_witness :
  exists others,
    erase_formData demo erase_empty_buffer =
    ([], Normal (mkPart "original_preview_image" (BufferBody [])
                   (Some "image.png") :: others)) /\
    parts_named "original_preview_image" others = [].
Proof.
  exact (proj1 (buffer_image_is_attached_as_it_is demo [])
           erase_empty_buffer eq_refl).
Defined.

(** X5. In [saveLargeImage] a non-empty string given as the original
    large image is attached first, under [original_large_image]: as a
    stream named after its final path segment ([image.png] when that
    segment is empty) if it is an existing path, and as its base64
    decoding named [image.png] if it is not. *)
Theorem large_image_string_is_path_or_base64
    (pf : Platform) (options : SaveLargeImageOptions.t) (s : string) :
  SaveLargeImageOptions.originalLargeImage options = Some (SrcString s) ->
  s <> "" ->
  exists image_part others,
    save_formData pf options = image_part :: others /\
    field image_part = "original_large_image" /\
    parts_named "original_large_image" others = [] /\
    (fs_existsSync pf s = true ->
       body image_part = StreamBody (createReadStream s) /\
       exists seg, is_final_segment s seg /\
         filename image_part = Some (segment_or seg "image.png")) /\
    (fs_existsSync pf s = false ->
       body image_part = BufferBody (Buffer_from_base64 pf s) /\
       filename image_part = Some "image.png").
Proof.
  intros Himage Hs.
  destruct (streamed_filename s "image.png") as (seg & Hseg & Hname).
  unfold save_formData. rewrite Himage, (truthy_source_string Hs).
  unfold append_image.
  destruct (fs_existsSync pf s) eqn:E;
    destruct (truthy_text (SaveLargeImageOptions.previewImageToSave options));
    destruct (truthy_text (SaveLargeImageOptions.previewMaskToSave options));
    destruct (truthy_text (SaveLargeImageOptions.sessionId options));
    (eexists; eexists; split; [reflexivity|]);
    (split; [reflexivity|]); (split; [reflexivity|]);
    (split; intros X; try discriminate);
    (split; [reflexivity|]); simpl;
    try reflexivity;
    (exists seg; split; [exact Hseg | now rewrite Hname]).
Qed.

Lemma large_image_string_is_path_or_base64_witness :
  "input.jpeg" <> "" /\
  exists image_part others,
    save_formData demo save_example = image_part :: others /\
    field image_part = "original_large_image" /\
    filename image_part = Some "input.jpeg".
Proof.
  split; [discriminate|].
  destruct (@large_image_string_is_path_or_base64 demo save_example
              "input.jpeg" eq_refl ltac:(discriminate))
    as (image_part & others & H1 & H2 & _).
  exists image_part, others. split; [exact H1|]. split; [exact H2|].
  inversion H1. reflexivity.
Defined.

(** X6. Every erase request that is built starts with its source, and has
    exactly one: either the [original_preview_image] part or the
    [session_id] part, never both and never neither. *)
Theorem erase_form_has_exactly_one_source
    (pf : Platform) (options : EraseWatermarkOptions.t) (formData : FormData) :
  erase_formData pf options = ([], Normal formData) ->
  exists source others,
    formData = source :: others /\
    (field source = "original_preview_image" \/ field source = "session_id") /\
    parts_named "original_preview_image" others = [] /\
    parts_named "session_id" others = [].
Proof.
  unfold erase_formData.
  destruct (truthy_source _) as [[path|buffer]|];
    [unfold append_image; destruct (fs_existsSync pf path) | |
     destruct (truthy_text (EraseWatermarkOptions.sessionId options));
     [|discriminate]];
    rewrite bind_ret; cbv zeta;
    destruct (truthy_text (EraseWatermarkOptions.maskBase options));
    destruct (truthy_text (EraseWatermarkOptions.maskBrush options));
    intros H; inversion H; eexists; eexists;
    (split; [reflexivity|]); (split; [simpl; auto|]); split; reflexivity.
Qed.

Lemma erase_form_has_exactly_one_source_witness :
  exists source others,
    refine_form = source :: others /\
    (field source = "original_preview_image" \/ field source = "session_id") /\
    parts_named "original_preview_image" others = [] /\
    parts_named "session_id" others = [].
Proof.
  exact (@erase_form_has_exactly_one_source demo erase_refine refine_form
           eq_refl).
Defined.

(** X7. A session identifier is forwarded as it is: a non-empty
    identifier is attached once, as a text part without filename whose
    text is the identifier, by [eraseWatermark] when there is no image
    source and by [saveLargeImage] always. *)
Theorem session_identifier_is_forwarded_verbatim (pf : Platform) (id : string) :
  id <> "" ->
  (forall options,
     truthy_source (EraseWatermarkOptions.originalPreviewImage options)
       = None ->
     EraseWatermarkOptions.sessionId options = Some id ->
     exists others,
       erase_formData pf options =
       ([], Normal (mkPart "session_id" (TextBody id) None :: others)) /\
       parts_named "session_id" others = []) /\
  (forall options,
     SaveLargeImageOptions.sessionId options = Some id ->
     parts_named "session_id" (save_formData pf options) =
     [mkPart "session_id" (TextBody id) None]).
Proof.
  intros Hid. split.
  - intros options Himage Hsession. unfold erase_formData.
    rewrite Himage, Hsession, (truthy_text_string Hid), bind_ret. cbv zeta.
    destruct (truthy_text (EraseWatermarkOptions.maskBase options));
    destruct (truthy_text (EraseWatermarkOptions.maskBrush options));
    eexists; split; reflexivity.
  - intros options Hsession. unfold save_formData.
    rewrite Hsession, (truthy_text_string Hid).
    destruct (truthy_source _) as [[path|buffer]|];
      [unfold append_image; destruct (fs_existsSync pf path) | | ];
    destruct (truthy_text (SaveLargeImageOptions.previewImageToSave options));
    destruct (truthy_text (SaveLargeImageOptions.previewMaskToSave options));
    reflexivity.
Qed.

Lemma session_identifier_is_forwarded_verbatim_witness :
  "abc" <> "" /\
  parts_named "session_id" (save_formData demo save_example) =
  [mkPart "session_id" (TextBody "abc") None].
Proof.
  split; [discriminate|].
  exact (proj2 (@session_identifier_is_forwarded_verbatim demo "abc"
                  ltac:(discriminate)) save_example eq_refl).
Defined.

(** X8. In [saveLargeImage] a non-empty preview image and a non-empty
    preview mask are each attached once, as the base64 decoding of the
    string under a fixed name, whether or not the string is an existing
    path. *)
Theorem save_previews_are_base64 (pf : Platform)
    (options : SaveLargeImageOptions.t) :
  (forall preview,
     SaveLargeImageOptions.previewImageToSave options = Some preview ->
     preview <> "" ->
     parts_named "preview_image_to_save" (save_formData pf options) =
     [mkPart "preview_image_to_save"
        (BufferBody (Buffer_from_base64 pf preview))
        (Some "preview_image_to_save.jpeg")]) /\
  (forall mask,
     SaveLargeImageOptions.previewMaskToSave options = Some mask ->
     mask <> "" ->
     parts_named "preview_mask_to_save" (save_formData pf options) =
     [mkPart "preview_mask_to_save"
        (BufferBody (Buffer_from_base64 pf mask))
        (Some "preview_mask_to_save.jpeg")]).
Proof.
  split.
  - intros preview H Hne. unfold save_formData.
    rewrite H, (truthy_text_string Hne).
    destruct (truthy_source _) as [[path|buffer]|];
      [unfold append_image; destruct (fs_existsSync pf path) | | ];
    destruct (truthy_text (SaveLargeImageOptions.previewMaskToSave options));
    destruct (truthy_text (SaveLargeImageOptions.sessionId options));
    reflexivity.
  - intros mask H Hne. unfold save_formData.
    rewrite H, (truthy_text_string Hne).
    destruct (truthy_source _) as [[path|buffer]|];
      [unfold append_image; destruct (fs_existsSync pf path) | | ];
    destruct (truthy_text (SaveLargeImageOptions.previewImageToSave options));
    destruct (truthy_text (SaveLargeImageOptions.sessionId options));
    reflexivity.
Qed.

Lemma save_previews_are_base64_witness :
  fs_existsSync demo "QUJD" = true /\ "QUJD" <> "" /\
  parts_named "preview_image_to_save" (save_formData demo save_example) =
  [mkPart "preview_image_to_save" (BufferBody (Buffer_from_base64 demo "QUJD"))
     (Some "preview_image_to_save.jpeg")].
Proof.
  split; [reflexivity|]. split; [discriminate|].
  apply (proj1 (save_previews_are_base64 demo save_example) "QUJD" eq_refl).
  discriminate.
Defined.

(** ** Invariants of the forms *)

(** X9. The fields of a request come in a fixed order and none is
    repeated: the field names of an erase form are a subsequence of
    [erase_field_order] and those of a save form a subsequence of
    [save_field_order]. *)
Theorem form_fields_follow_a_fixed_order (pf : Platform) :
  (forall options formData,
     erase_formData pf options = ([], Normal formData) ->
     is_subsequence (map field formData) erase_field_order = true /\
     NoDup (map field formData)) /\
  (forall options,
     is_subsequence (map field (save_formData pf options)) save_field_order
       = true /\
     NoDup (map field (save_formData pf options))).
Proof.
  split.
  - intros options formData. unfold erase_formData.
    destruct (truthy_source _) as [[path|buffer]|];
      [unfold append_image; destruct (fs_existsSync pf path) | |
       destruct (truthy_text (EraseWatermarkOptions.sessionId options));
       [|discriminate]];
      rewrite bind_ret; cbv zeta;
      destruct (truthy_text (EraseWatermarkOptions.maskBase options));
      destruct (truthy_text (EraseWatermarkOptions.maskBrush options));
      intros H; inversion H; (split; [reflexivity|]); simpl;
      repeat (constructor; [simpl; intuition discriminate|]); constructor.
  - intros options. unfold save_formData.
    destruct (truthy_source _) as [[path|buffer]|];
      [unfold append_image; destruct (fs_existsSync pf path) | | ];
    destruct (truthy_text (SaveLargeImageOptions.previewImageToSave options));
    destruct (truthy_text (SaveLargeImageOptions.previewMaskToSave options));
    destruct (truthy_text (SaveLargeImageOptions.sessionId options));
    (split; [reflexivity|]); simpl;
    repeat (constructor; [simpl; intuition discriminate|]); constructor.
Qed.

Lemma form_fields_follow_a_fixed_order_witness :
  erase_formData demo erase_refine = ([], Normal refine_form) /\
  is_subsequence (map field refine_form) erase_field_order = true.
Proof.
  split; [reflexivity|].
  exact (proj1 (proj1 (form_fields_follow_a_fixed_order demo)
                  erase_refine refine_form eq_refl)).
Defined.

Lemma generic_name_is_clean (seg generic : string) :
  generic <> "" -> ~ occurs slash generic -> ~ occurs slash seg ->
  segment_or seg generic <> "" /\ ~ occurs slash (segment_or seg generic).
Proof.
  intros Hne Hg Hs. destruct seg as [|c seg]; simpl.
  - now split.
  - split; [discriminate | exact Hs].
Qed.

(** [path.split('/').pop() || generic] is a usable file name. *)
Lemma streamed_filename_is_clean (path generic : string) :
  generic <> "" -> ~ occurs slash generic ->
  or_default (pop (split slash path)) generic <> "" /\
  ~ occurs slash (or_default (pop (split slash path)) generic).
Proof.
  intros Hne Hg.
  destruct (streamed_filename path generic) as (seg & [Hseg _] & ->).
  now apply generic_name_is_clean.
Qed.

(** Discharges [well_named] on a part whose name is a literal. *)
Ltac literal_name :=
  simpl; first
    [ exact I
    | split; [discriminate | unfold occurs, slash; simpl; intuition discriminate] ].

(** X10. Every part of a request is well named: a text field has no
    filename, and a binary field has a filename that is neither empty nor
    contains a slash, whatever path it was read from. *)
Theorem form_parts_are_well_named (pf : Platform) :
  (forall options formData,
     erase_formData pf options = ([], Normal formData) ->
     Forall well_named formData) /\
  (forall options, Forall well_named (save_formData pf options)).
Proof.
  assert (Image : forall path,
            well_named
              (mkPart "original_preview_image"
                 (StreamBody (createReadStream path))
                 (Some (or_default (pop (split slash path)) "image.png")))).
  { intros path. apply streamed_filename_is_clean;
      [discriminate | unfold occurs, slash; simpl; intuition discriminate]. }
  assert (Large : forall path,
            well_named
              (mkPart "original_large_image"
                 (StreamBody (createReadStream path))
                 (Some (or_default (pop (split slash path)) "image.png")))).
  { intros path. apply streamed_filename_is_clean;
      [discriminate | unfold occurs, slash; simpl; intuition discriminate]. }
  assert (Brush : forall path,
            well_named
              (mkPart "mask_brush" (StreamBody (createReadStream path))
                 (Some (or_default (pop (split slash path)) "mask_brush.png")))).
  { intros path. apply streamed_filename_is_clean;
      [discriminate | unfold occurs, slash; simpl; intuition discriminate]. }
  split.
  - intros options formData. unfold erase_formData.
    destruct (truthy_source _) as [[path|buffer]|];
      [unfold append_image; destruct (fs_existsSync pf path) | |
       destruct (truthy_text (EraseWatermarkOptions.sessionId options));
       [|discriminate]];
      rewrite bind_ret; cbv zeta;
      destruct (truthy_text (EraseWatermarkOptions.maskBase options));
      destruct (truthy_text (EraseWatermarkOptions.maskBrush options));
      intros H; inversion H; unfold append, FormData_new; simpl;
      repeat (constructor; [first [apply Image | apply Brush | literal_name]|]);
      constructor.
  - intros options. unfold save_formData.
    destruct (truthy_source _) as [[path|buffer]|];
      [unfold append_image; destruct (fs_existsSync pf path) | | ];
    destruct (truthy_text (SaveLargeImageOptions.previewImageToSave options));
    destruct (truthy_text (SaveLargeImageOptions.previewMaskToSave options));
    destruct (truthy_text (SaveLargeImageOptions.sessionId options));
    unfold append, FormData_new; simpl;
    repeat (constructor; [first [apply Large | literal_name]|]);
    constructor.
Qed.

Lemma form_parts_are_well_named_witness :
  erase_formData demo erase_brush_directory =
    ([], Normal [mkPart "session_id" (TextBody "abc") None;
                 mkPart "mask_brush"
                   (StreamBody (createReadStream "masks/"))
                   (Some "mask_brush.png");
                 mkPart "remove_text" (TextBody "true") None]) /\
  Forall well_named
    [mkPart "session_id" (TextBody "abc") None;
     mkPart "mask_brush" (StreamBody (createReadStream "masks/"))
       (Some "mask_brush.png");
     mkPart "remove_text" (TextBody "true") None].
Proof.
  split; [reflexivity|].
  exact (proj1 (form_parts_are_well_named demo) erase_brush_directory _
           eq_refl).
Defined.

(** ** Reading the response *)

(** What an erase call makes of a fulfilled POST. *)
Lemma eraseWatermark_fulfilled pf this options formData r :
  erase_formData pf options = ([], Normal formData) ->
  remote pf eraseUrl formData (request_headers pf this formData)
    = Fulfilled r ->
  match optional_get (Some (data r)) "edited_image" with
  | None | Some JNull =>
      exists msg,
        eraseWatermark pf this options =
        ([Post eraseUrl formData (request_headers pf this formData)],
         Throw (TypeError msg))
  | Some edited_image =>
      eraseWatermark pf this options =
      ([Post eraseUrl formData (request_headers pf this formData)],
       Normal (EraseWatermarkResponse.mk
                 (optional_get (Some (data r)) "session_id")
                 (optional_get (Some edited_image) "image")
                 (optional_get (Some edited_image) "mask")
                 (optional_get (Some edited_image) "watermark_mask")))
  end.
Proof.
  intros Hbuilt Hr.
  rewrite (@eraseWatermark_built pf this options formData)
    by now rewrite Hbuilt.
  unfold erase_request.
  change (("x-api-key", apiKey this) :: getHeaders pf formData)
    with (request_headers pf this formData).
  rewrite axios_post_run, Hr, bind_normal. cbv zeta.
  destruct (data r) as [| | | | |fields]; simpl; eauto.
  destruct (assoc "edited_image" fields) as [[| | | | |inner]|];
    simpl; eauto.
Qed.

(** X11. After a fulfilled POST, [eraseWatermark] returns a result exactly
    when the body has an [edited_image] property that is not [null].  The
    result then holds whatever stands under [session_id], [image], [mask]
    and [watermark_mask], [undefined] for what is missing; nothing is
    validated.  Otherwise the call fails with a TypeError, which reaches
    the caller as it is, and nothing is logged. *)
Theorem eraseWatermark_needs_edited_image
    (pf : Platform) (this : Dewatermark) (options : EraseWatermarkOptions.t)
    (formData : FormData) (r : AxiosResponse) :
  erase_formData pf options = ([], Normal formData) ->
  remote pf eraseUrl formData (request_headers pf this formData)
    = Fulfilled r ->
  match optional_get (Some (data r)) "edited_image" with
  | None | Some JNull =>
      exists msg,
        eraseWatermark pf this options =
        ([Post eraseUrl formData (request_headers pf this formData)],
         Throw (TypeError msg))
  | Some edited_image =>
      eraseWatermark pf this options =
      ([Post eraseUrl formData (request_headers pf this formData)],
       Normal (EraseWatermarkResponse.mk
                 (optional_get (Some (data r)) "session_id")
                 (optional_get (Some edited_image) "image")
                 (optional_get (Some edited_image) "mask")
                 (optional_get (Some edited_image) "watermark_mask")))
  end.
Proof. intros Hbuilt Hr. now apply eraseWatermark_fulfilled. Qed.

Lemma eraseWatermark_needs_edited_image_witness :
  erase_formData incomplete erase_cat = ([], Normal cat_form) /\
  exists msg,
    eraseWatermark incomplete client erase_cat =
    ([Post eraseUrl cat_form (request_headers incomplete client cat_form)],
     Throw (TypeError msg)).
Proof.
  split; [reflexivity|].
  exact (@eraseWatermark_needs_edited_image incomplete client erase_cat
           cat_form save_success eq_refl eq_refl).
Defined.

(** What a save call makes of a fulfilled POST. *)
Lemma saveLargeImage_fulfilled pf this options r :
  remote pf saveLargeImageUrl (save_formData pf options)
    (request_headers pf this (save_formData pf options)) = Fulfilled r ->
  match data r with
  | JNull =>
      exists msg,
        saveLargeImage pf this options =
        ([Post saveLargeImageUrl (save_formData pf options)
            (request_headers pf this (save_formData pf options))],
         Throw (TypeError msg))
  | body =>
      saveLargeImage pf this options =
      ([Post saveLargeImageUrl (save_formData pf options)
          (request_headers pf this (save_formData pf options))],
       Normal (SaveLargeImageResponse.mk
                 (optional_get (Some body) "large_image_to_save")))
  end.
Proof.
  intros Hr. unfold saveLargeImage, save_request.
  change (("x-api-key", apiKey this) :: getHeaders pf ?f)
    with (request_headers pf this f).
  rewrite axios_post_run, Hr, bind_normal. cbv zeta.
  destruct (data r); simpl; eauto.
Qed.

(** X12. After a fulfilled POST, [saveLargeImage] returns a result unless
    the body is [null]: the result holds whatever stands under
    [large_image_to_save], [undefined] when the body has no such property
    or is not an object.  On a [null] body the call fails with a
    TypeError and logs nothing. *)
Theorem saveLargeImage_reads_one_field
    (pf : Platform) (this : Dewatermark) (options : SaveLargeImageOptions.t)
    (r : AxiosResponse) :
  remote pf saveLargeImageUrl (save_formData pf options)
    (request_headers pf this (save_formData pf options)) = Fulfilled r ->
  match data r with
  | JNull =>
      exists msg,
        saveLargeImage pf this options =
        ([Post saveLargeImageUrl (save_formData pf options)
            (request_headers pf this (save_formData pf options))],
         Throw (TypeError msg))
  | body =>
      saveLargeImage pf this options =
      ([Post saveLargeImageUrl (save_formData pf options)
          (request_headers pf this (save_formData pf options))],
       Normal (SaveLargeImageResponse.mk
                 (optional_get (Some body) "large_image_to_save")))
  end.
Proof. intros Hr. now apply saveLargeImage_fulfilled. Qed.

Lemma saveLargeImage_reads_one_field_witness :
  saveLargeImage demo client save_preview =
  ([Post saveLargeImageUrl (save_formData demo save_preview)
      (request_headers demo client (save_formData demo save_preview))],
   Normal (SaveLargeImageResponse.mk None)).
Proof.
  exact (@saveLargeImage_reads_one_field demo client save_preview
           erase_success eq_refl).
Defined.

(** ** What has no influence *)

(** X13. When an erase call has an image source, its session identifier
    plays no part: two calls that differ in the session identifier only
    behave alike. *)
Theorem session_is_ignored_beside_an_image
    (pf : Platform) (this : Dewatermark) (image : ImageSource)
    (mask brush id id' : option string) (flag : option bool) :
  image <> SrcString "" ->
  eraseWatermark pf this
    (EraseWatermarkOptions.mk (Some image) mask brush id flag) =
  eraseWatermark pf this
    (EraseWatermarkOptions.mk (Some image) mask brush id' flag).
Proof.
  intros Hne.
  assert (T : truthy_source (Some image) = Some image).
  { destruct image as [[|c s]|b]; [congruence | reflexivity ..]. }
  unfold eraseWatermark, erase_formData. simpl EraseWatermarkOptions.originalPreviewImage.
  now rewrite T.
Qed.

Lemma session_is_ignored_beside_an_image_witness :
  eraseWatermark demo client erase_cat =
  eraseWatermark demo client erase_cat_in_session.
Proof.
  apply (@session_is_ignored_beside_an_image demo client
           (SrcString "photos/cat.png") None None None (Some "abc") None).
  discriminate.
Defined.

(** X14. The disk is consulted for one thing only, an image source given
    as a string: two platforms that decode base64 alike and agree on
    whether that string is an existing path build the same forms.  In
    particular the brush path is never checked. *)
Theorem only_the_image_string_is_looked_up (pf pf' : Platform) :
  same_decoder pf pf' ->
  (forall options,
     (forall s,
        EraseWatermarkOptions.originalPreviewImage options
          = Some (SrcString s) ->
        fs_existsSync pf s = fs_existsSync pf' s) ->
     erase_formData pf options = erase_formData pf' options) /\
  (forall options,
     (forall s,
        SaveLargeImageOptions.originalLargeImage options
          = Some (SrcString s) ->
        fs_existsSync pf s = fs_existsSync pf' s) ->
     save_formData pf options = save_formData pf' options).
Proof.
  intros D. split.
  - intros options E. unfold erase_formData.
    destruct (EraseWatermarkOptions.originalPreviewImage options)
      as [[s|b]|] eqn:I; simpl truthy_source.
    + destruct (truthy_string s); unfold append_image;
        rewrite ?(E s eq_refl), ?D;
        destruct (truthy_text (EraseWatermarkOptions.sessionId options));
        destruct (truthy_text (EraseWatermarkOptions.maskBase options));
        rewrite ?D; reflexivity.
    + destruct (truthy_text (EraseWatermarkOptions.maskBase options));
        rewrite ?D; reflexivity.
    + destruct (truthy_text (EraseWatermarkOptions.sessionId options));
        destruct (truthy_text (EraseWatermarkOptions.maskBase options));
        rewrite ?D; reflexivity.
  - intros options E. unfold save_formData.
    destruct (SaveLargeImageOptions.originalLargeImage options)
      as [[s|b]|] eqn:I; simpl truthy_source.
    + destruct (truthy_string s); unfold append_image;
        rewrite ?(E s eq_refl), ?D;
        destruct (truthy_text
                    (SaveLargeImageOptions.previewImageToSave options));
        destruct (truthy_text
                    (SaveLargeImageOptions.previewMaskToSave options));
        rewrite ?D; reflexivity.
    + destruct (truthy_text
                  (SaveLargeImageOptions.previewImageToSave options));
        destruct (truthy_text
                    (SaveLargeImageOptions.previewMaskToSave options));
        rewrite ?D; reflexivity.
    + destruct (truthy_text
                  (SaveLargeImageOptions.previewImageToSave options));
        destruct (truthy_text
                    (SaveLargeImageOptions.previewMaskToSave options));
        rewrite ?D; reflexivity.
Qed.

Lemma only_the_image_string_is_looked_up_witness :
  fs_existsSync demo "masks/" = true /\
  fs_existsSync blank_disk "masks/" = false /\
  erase_formData demo erase_brush_directory =
  erase_formData blank_disk erase_brush_directory.
Proof.
  split; [reflexivity|]. split; [reflexivity|].
  apply (proj1 (@only_the_image_string_is_looked_up demo blank_disk
                  (fun s => eq_refl))).
  intros s H. discriminate H.
Defined.

(** ** Messages that are not text *)

(** X15. When the message field of a failed response is an object (one
    that has no [toString] property of its own), the error thrown reads
    ["API Error: [object Object]"]: the field is printed, not inspected. *)
Theorem structured_message_is_printed_blindly
    (pf : Platform) (this : Dewatermark) (e : AxiosError)
    (fields : list (string * Json)) :
  remote_message e = Some (JObj fields) ->
  has_key "toString" fields = false ->
  (forall options formData,
     erase_formData pf options = ([], Normal formData) ->
     remote pf eraseUrl formData (request_headers pf this formData)
       = Rejected (Axios e) ->
     completion (eraseWatermark pf this options) =
     Throw (NewError "API Error: [object Object]")) /\
  (forall options,
     remote pf saveLargeImageUrl (save_formData pf options)
       (request_headers pf this (save_formData pf options))
       = Rejected (Axios e) ->
     completion (saveLargeImage pf this options) =
     Throw (NewError "API Error: [object Object]")).
Proof.
  intros Hm Hk.
  assert (E : api_error e = NewError "API Error: [object Object]").
  { unfold api_error. rewrite Hm. simpl. now rewrite Hk. }
  split.
  - intros options formData Hbuilt Hr.
    rewrite (@eraseWatermark_rejected pf this options formData _ Hbuilt Hr),
      catch_clause_axios.
    simpl. now rewrite E.
  - intros options Hr.
    rewrite (@saveLargeImage_rejected pf this options _ Hr),
      catch_clause_axios.
    simpl. now rewrite E.
Qed.

Lemma structured_message_is_printed_blindly_witness :
  remote_message structured_failure = Some (JObj [("code", JNum "7")]) /\
  completion (saveLargeImage picky client save_preview) =
  Throw (NewError "API Error: [object Object]").
Proof.
  split; [reflexivity|].
  exact (proj2 (@structured_message_is_printed_blindly picky client
                  structured_failure [("code", JNum "7")] eq_refl eq_refl)
           save_preview eq_refl).
Defined.

(** ** Outcomes *)

Lemma erase_formData_run pf options :
  erase_formData pf options = ([], completion (erase_formData pf options)).
Proof.
  rewrite (surjective_run (erase_formData pf options)) at 1.
  now rewrite erase_formData_silent.
Qed.


(** X16. A call never reports success on its own: when either method
    returns a result, its POST was sent and was fulfilled by the
    service. *)
Theorem success_comes_from_the_service (pf : Platform) (this : Dewatermark) :
  (forall options result,
     completion (eraseWatermark pf this options) = Normal result ->
     exists formData r,
       erase_formData pf options = ([], Normal formData) /\
       remote pf eraseUrl formData (request_headers pf this formData)
         = Fulfilled r /\
       events (eraseWatermark pf this options) =
         [Post eraseUrl formData (request_headers pf this formData)]) /\
  (forall options result,
     completion (saveLargeImage pf this options) = Normal result ->
     exists r,
       remote pf saveLargeImageUrl (save_formData pf options)
         (request_headers pf this (save_formData pf options)) = Fulfilled r /\
       events (saveLargeImage pf this options) =
         [Post saveLargeImageUrl (save_formData pf options)
            (request_headers pf this (save_formData pf options))]).
Proof.
  split.
  - intros options result H.
    destruct (completion (erase_formData pf options)) as [fd|error] eqn:B.
    + exists fd.
      pose proof (eraseWatermark_trace pf this options) as T.
      rewrite B in T.
      destruct (remote pf eraseUrl fd (request_headers pf this fd))
        as [r|reason] eqn:Hr.
      * exists r. rewrite erase_formData_run, B. auto.
      * exfalso.
        rewrite (@eraseWatermark_rejected pf this options fd reason) in H;
          [|now rewrite erase_formData_run, B | exact Hr].
        simpl in H. destruct reason as [m|m|e|d]; try discriminate.
        rewrite catch_clause_axios in H. discriminate.
    + rewrite (eraseWatermark_not_built _ _ _ B) in H. discriminate.
  - intros options result H.
    pose proof (saveLargeImage_trace pf this options) as T.
    destruct (remote pf saveLargeImageUrl (save_formData pf options)
                (request_headers pf this (save_formData pf options)))
      as [r|reason] eqn:Hr.
    + exists r. auto.
    + exfalso.
      rewrite (@saveLargeImage_rejected pf this options reason Hr) in H.
      simpl in H. destruct reason as [m|m|e|d]; try discriminate.
      rewrite catch_clause_axios in H. discriminate.
Qed.

Lemma success_comes_from_the_service_witness :
  exists formData r,
    erase_formData demo erase_cat = ([], Normal formData) /\
    remote demo eraseUrl formData (request_headers demo client formData)
      = Fulfilled r /\
    events (eraseWatermark demo client erase_cat) =
      [Post eraseUrl formData (request_headers demo client formData)].
Proof.
  exact (proj1 (success_comes_from_the_service demo client) erase_cat
           (EraseWatermarkResponse.mk (Some (JStr "abc")) (Some (JStr "A"))
              (Some (JStr "B")) (Some (JStr "C")))
           eq_refl).
Defined.




(** The fifth kind on a concrete failure. *)
Lemma unprintable_message_raises_a_type_error :
  completion (saveLargeImage garbling client save_preview) =
  Throw (TypeError "Cannot convert object to primitive value").
Proof. reflexivity. Qed.
